(** * Wallet front-end: transfer form and token list

    A shallow embedding of the two React components of the wallet
    front-end, the transfer form [TransferForm] and the token list
    [TokenList] (components/custom/wallet/components/token-list.tsx),
    together with the properties of the transfer workflow and of the
    balance list that the specification states.

    Layout of the development:
    - [JS]           JavaScript numbers and the few string helpers used;
    - [Ft4]          the asset/balance records and the amount converter;
    - [Zod]          the validation schema [transferTokenSchema];
    - [Eff]          a small trace monad for the handlers' effects;
    - [TransferForm] the form component, its handlers and its life cycle;
    - [TokenList]    the list component;
    - the theorems, one group per component. *)

From Stdlib Require Import ZArith NArith QArith List String Ascii Bool Lia.
From Stdlib Require Import DecimalString Lqa.
Import ListNotations.

Set Implicit Arguments.

(* ===================================================================== *)
(** ** JavaScript values *)
(* ===================================================================== *)

Module JS.

(** A JavaScript [number].  Every finite double is a rational, and the
    comparisons the schema performs on it are exact, so a finite number
    is carried as its rational value; the three non-finite values are
    kept apart because [<] and [>] treat them specially. *)
Inductive Number : Type :=
| NaN
| NegInfinity
| Finite (q : Q)
| PosInfinity.

Definition isNaN (x : Number) : bool :=
  match x with NaN => true | _ => false end.

(** [a < b] as JavaScript evaluates it: false as soon as one side is NaN. *)
Definition ltb (a b : Number) : bool :=
  match a, b with
  | NaN, _ | _, NaN => false
  | NegInfinity, NegInfinity => false
  | NegInfinity, _ => true
  | _, NegInfinity => false
  | PosInfinity, _ => false
  | Finite _, PosInfinity => true
  | Finite x, Finite y => negb (Qle_bool y x)
  end.

(** [a > b]. *)
Definition gtb (a b : Number) : bool := ltb b a.

Definition ofZ (z : Z) : Number := Finite (inject_Z z).

(** [String.prototype.toUpperCase] on strings of ASCII characters: the
    letters a..z are replaced by A..Z and every other character is kept.
    On other letters JavaScript's function does more (it can even change
    the length of the string), so what is proved of this function is
    stated for ASCII strings, or holds of any upper-casing. *)
Definition upper_ascii (c : ascii) : ascii :=
  let n := nat_of_ascii c in
  if (97 <=? n)%nat && (n <=? 122)%nat then ascii_of_nat (n - 32) else c.

Fixpoint toUpperCase (s : string) : string :=
  match s with
  | EmptyString => EmptyString
  | String c s' => String (upper_ascii c) (toUpperCase s')
  end.

(** [a || b] on strings: the empty string is falsy. *)
Definition or_else (a b : string) : string :=
  match a with EmptyString => b | _ => a end.

(** [BigInt.prototype.toString()]: the decimal digits of an integer. *)
Definition bigint_toString (z : Z) : string :=
  NilZero.string_of_int (Z.to_int z).

End JS.

(* ===================================================================== *)
(** ** Assets, balances and the amount converter *)
(* ===================================================================== *)

Module Ft4.

(** An exact decimal, [coef / 10^scale]: what a decimal string such as
    ["1.23"] (coef 123, scale 2) denotes.  [scale] is the number of
    fractional digits written. *)
Record Decimal : Type := { coef : Z; scale : nat }.

(** What the converter accepts: a decimal string or a number, which may
    fail to be finite. *)
Inductive DecimalInput : Type :=
| Dec (d : Decimal)
| NotFinite.

Definition pow10 (n : nat) : Z := 10 ^ Z.of_nat n.

(** The rational a decimal denotes. *)
Definition Decimal_value (d : Decimal) : Q :=
  Qmake (coef d) 1 / inject_Z (pow10 (scale d)).

Inductive ConvertError : Type := InvalidAmount.

(** Modelled from the spec: [convertToRawAmount] of the ledger client
    library is not part of the sources; it is the [toRaw] direction of
    the amount converter: the integer number of raw units of a decimal
    amount, failing with [InvalidAmount] when the input has more
    fractional digits than [decimals] allows, is negative, or is not
    finite. *)
Definition convertToRawAmount (x : DecimalInput) (decimals : nat)
  : Z + ConvertError :=
  match x with
  | NotFinite => inr InvalidAmount
  | Dec d =>
      if (coef d <? 0)%Z then inr InvalidAmount
      else if (decimals <? scale d)%nat then inr InvalidAmount
      else inl (coef d * pow10 (decimals - scale d))%Z
  end.

(** Modelled from the spec: the [toDecimal] direction of the amount
    converter, [rawAmount / 10^decimals] as an exact decimal.  It never
    fails. *)
Definition toDecimal (rawAmount : N) (decimals : nat) : Decimal :=
  {| coef := Z.of_N rawAmount; scale := decimals |}.

Record Asset : Type :=
  { symbol : string; decimals : nat; iconUrl : string }.

(** A balance as the store holds it: the asset and the raw ledger
    amount, a non-negative integer. *)
Record Balance : Type := { asset : Asset; rawAmount : N }.

(** Modelled from the spec: [balance.amount.toString()] of the ledger
    client library, the balance written as a decimal amount. *)
Definition amount_toString (b : Balance) : Decimal :=
  toDecimal (rawAmount b) (decimals (asset b)).

(** The derived display amount of the specification,
    [rawAmount / 10^decimals]. *)
Definition displayAmount (b : Balance) : Q :=
  Decimal_value (amount_toString b).

End Ft4.

(* ===================================================================== *)
(** ** The validation schema *)
(* ===================================================================== *)

Module Zod.

Inductive Field : Type := recipient_field | amount_field.

Record Issue : Type := { path : Field; message : string }.

(** [z.string().min(n, {message})]: the issues raised on a string. *)
Definition string_min (n : nat) (msg : string) (s : string) : list string :=
  if (String.length s <? n)%nat then [msg] else [].

(** [.min(bound, {message})] on a number: inclusive lower bound. *)
Definition number_min (bound : JS.Number) (msg : string) (x : JS.Number)
  : list string :=
  if JS.ltb x bound then [msg] else [].

(** [.max(bound, {message})] on a number: inclusive upper bound. *)
Definition number_max (bound : JS.Number) (msg : string) (x : JS.Number)
  : list string :=
  if JS.gtb x bound then [msg] else [].

(** [z.number({message})] followed by its checks: NaN is not of the
    number type and raises the type issue, otherwise every check runs.
    The infinities go through the checks like any number, as in
    version 3 of the library; version 4 refuses them with the type
    issue.  Either way they are refused, and only their message differs,
    so nothing is stated here about the message of an infinite amount. *)
Definition number (msg : string) (checks : list (JS.Number -> list string))
           (x : JS.Number) : list string :=
  if JS.isNaN x then [msg] else flat_map (fun c => c x) checks.

Definition at_path (p : Field) (msgs : list string) : list Issue :=
  map (fun m => {| path := p; message := m |}) msgs.

Definition Field_eqb (a b : Field) : bool :=
  match a, b with
  | recipient_field, recipient_field => true
  | amount_field, amount_field => true
  | _, _ => false
  end.

(** The message of the first issue raised at a path, as the resolver
    reports it for a field. *)
Fixpoint first_at (p : Field) (issues : list Issue) : option string :=
  match issues with
  | [] => None
  | i :: rest => if Field_eqb (path i) p then Some (message i)
                 else first_at p rest
  end.

End Zod.

(** The values of the form, [TransferTokenValues]. *)
Record TransferTokenValues : Type :=
  { recipient : string; amount : JS.Number }.

(** [formState.errors]: one optional message per field. *)
Record FieldErrors : Type :=
  { errors_recipient : option string; errors_amount : option string }.

Definition no_errors : FieldErrors :=
  {| errors_recipient := None; errors_amount := None |}.

Definition recipient_required : string := "Recipient is required".
Definition amount_required : string := "Amount is required".
Definition amount_too_small : string := "Amount should be greater than 0".
Definition amount_too_big : string := "Max possible to transfer 100 000 tokens".

(** [transferTokenSchema.recipient]. *)
Definition recipient_schema (s : string) : list string :=
  Zod.string_min 1 recipient_required s.

(** [transferTokenSchema.amount]. *)
Definition amount_schema (x : JS.Number) : list string :=
  Zod.number amount_required
    [ Zod.number_min (JS.ofZ 1) amount_too_small;
      Zod.number_max (JS.ofZ 100000) amount_too_big ] x.

(** [transferTokenSchema]: the issues of an object, field by field. *)
Definition transferTokenSchema (v : TransferTokenValues) : list Zod.Issue :=
  (Zod.at_path Zod.recipient_field (recipient_schema (recipient v))
   ++ Zod.at_path Zod.amount_field (amount_schema (amount v)))%list.

(** [zodResolver(transferTokenSchema)]: the parsed values, or the errors
    by field. *)
Definition zodResolver (v : TransferTokenValues)
  : TransferTokenValues + FieldErrors :=
  match transferTokenSchema v with
  | [] => inl v
  | issues =>
      inr {| errors_recipient := Zod.first_at Zod.recipient_field issues;
             errors_amount := Zod.first_at Zod.amount_field issues |}
  end.

(* ===================================================================== *)
(** ** Effects of the handlers *)
(* ===================================================================== *)

(** How a promise settles. *)
Inductive Settlement : Type := Fulfilled | Rejected.

(** [Promise.all]: fulfilled when every promise is, rejected otherwise. *)
Definition Promise_all (ps : list Settlement) : Settlement :=
  if forallb (fun p => match p with Fulfilled => true | Rejected => false end) ps
  then Fulfilled else Rejected.

(** The outcome of one submission, as the submitter settles it. *)
Inductive TransferOutcome (Token Reason : Type) : Type :=
| Success (token : Token)
| Failure (reason : Reason).

Arguments Success {Token Reason} token.
Arguments Failure {Token Reason} reason.

Module Eff.
Section Trace.

Variables Token Reason : Type.

(** What the handlers do to the world outside the component: calls of
    the collaborators, in the order they are made. *)
Inductive Event : Type :=
| SubmitterInvoked (recipient : string) (amount : JS.Number)
| SuccessModalShown (token : Token)
| FailedModalShown (reason : Reason)
| BalanceRefreshInitiated
| HistoryRefreshInitiated
| OnBack.

(** A computation either returns or throws (a rejected [await]). *)
Inductive Completion (A : Type) : Type :=
| Returned (a : A)
| Thrown.

(** A handler: the events it emitted, and how it completed. *)
Definition t (A : Type) : Type := (list Event * Completion A)%type.

Definition ret {A} (a : A) : t A := ([], Returned a).

Definition bind {A B} (m : t A) (k : A -> t B) : t B :=
  match m with
  | (tr, Returned a) => let (tr', r) := k a in ((tr ++ tr')%list, r)
  | (tr, Thrown _) => (tr, Thrown B)
  end.

Definition emit (e : Event) : t unit := ([e], Returned tt).

(** [await p]: resumes when [p] is fulfilled, throws when rejected. *)
Definition await (p : Settlement) : t unit :=
  match p with
  | Fulfilled => ret tt
  | Rejected => ([], Thrown unit)
  end.

Definition trace {A} (m : t A) : list Event := fst m.

Definition completed {A} (m : t A) : bool :=
  match snd m with Returned _ => true | Thrown _ => false end.

End Trace.

Arguments SubmitterInvoked {Token Reason} recipient amount.
Arguments SuccessModalShown {Token Reason} token.
Arguments FailedModalShown {Token Reason} reason.
Arguments BalanceRefreshInitiated {Token Reason}.
Arguments HistoryRefreshInitiated {Token Reason}.
Arguments OnBack {Token Reason}.
Arguments ret {Token Reason A} a.
Arguments bind {Token Reason A B} m k.
Arguments emit {Token Reason} e.
Arguments await {Token Reason} p.
Arguments trace {Token Reason A} m.
Arguments completed {Token Reason A} m.

End Eff.

Declare Scope eff_scope.
Delimit Scope eff_scope with eff.
Notation "x <- m ;; k" := (Eff.bind m (fun x => k))
  (at level 61, m at next level, right associativity) : eff_scope.
Notation "m ;; k" := (Eff.bind m (fun _ => k))
  (at level 61, right associativity) : eff_scope.

(** [e] occurs in the trace, and everything before its first occurrence
    is [pre]. *)
Definition occurs_after {E : Type} (pre : list E) (e : E) (tr : list E) : Prop :=
  exists post, tr = (pre ++ e :: post)%list.

(** Every occurrence of [later] in the trace has an [earlier] before it. *)
Definition precedes {E : Type} (earlier later : E) (tr : list E) : Prop :=
  forall pre, occurs_after pre later tr -> In earlier pre.

(* ===================================================================== *)
(** ** The transfer form *)
(* ===================================================================== *)

(** What [useTokenBalance] hands to a component: the latest snapshot of
    the balances ([None] when the hook has none yet, [undefined] in the
    source) and the loading flag. *)
Record BalanceStore : Type :=
  { balances : option (list Ft4.Balance); isLoading : bool }.

(** [formState] of [useForm]. *)
Record FormState : Type :=
  { errors : FieldErrors; isSubmitting : bool }.

(** The exceptions a render can throw: a [TypeError] (a property read on
    [undefined]) or the converter's error. *)
Inductive Exception : Type :=
| TypeError
| ConvertFailed (e : Ft4.ConvertError).

(** A render either produces its view or throws. *)
Inductive Rendered (A : Type) : Type :=
| View (a : A)
| Throws (e : Exception).

Arguments Throws {A} e.

Module TransferForm.
Section Component.

Variables Token Reason : Type.

Local Abbreviation Event := (Eff.Event Token Reason).
Local Abbreviation Eff := (Eff.t Token Reason).
Local Open Scope eff_scope.

(** The collaborators of the form.  [submitter] is how the transfer
    submitter settles a request; [balanceRefresh] and [historyRefresh]
    are how the promises of the two refreshes settle; [Number_of] is
    JavaScript's [Number(...)] applied to a decimal string, whose
    rounding to a double is left to the caller of this model. *)
Variable submitter : string -> JS.Number -> TransferOutcome Token Reason.
Variables balanceRefresh historyRefresh : Settlement.
Variable Number_of : Ft4.Decimal -> JS.Number.

(** [refreshBalance()] and [refreshHistory()]: the call initiates the
    refresh and returns its promise. *)
Definition refreshBalance : Eff Settlement :=
  Eff.emit Eff.BalanceRefreshInitiated ;; Eff.ret balanceRefresh.

Definition refreshHistory : Eff Settlement :=
  Eff.emit Eff.HistoryRefreshInitiated ;; Eff.ret historyRefresh.

Definition showTransferedSuccessModal (token : Token) : Eff unit :=
  Eff.emit (Eff.SuccessModalShown token).

Definition showTransferedErrorModal (reason : Reason) : Eff unit :=
  Eff.emit (Eff.FailedModalShown reason).

(** The [onBack] property of the form, the callback of its caller. *)
Definition onBack : Eff unit := Eff.emit Eff.OnBack.

(** The [onSuccess] handler given to [useTransferTokens]. *)
Definition onSuccess (token : Token) : Eff unit :=
  showTransferedSuccessModal token ;;
  p1 <- refreshBalance ;;
  p2 <- refreshHistory ;;
  Eff.await (Promise_all [p1; p2]) ;;
  onBack.

(** The [onError] handler given to [useTransferTokens]. *)
Definition onError (reason : Reason) : Eff unit :=
  showTransferedErrorModal reason.

(** The handlers run when the submitter has settled a request. *)
Definition settle (on_success : Token -> Eff unit)
           (on_error : Reason -> Eff unit)
           (outcome : TransferOutcome Token Reason) : Eff unit :=
  match outcome with
  | Success token => on_success token
  | Failure reason => on_error reason
  end.

(** Modelled from the spec: the hook [useTransferTokens] is not part of
    the sources.  The function it returns invokes the transfer submitter
    with the recipient and the amount, and on completion runs the success
    handler with the token of the transfer, or the error handler with the
    reason of the failure. *)
Definition useTransferTokens (on_success : Token -> Eff unit)
           (on_error : Reason -> Eff unit)
           (recipient : string) (amount : JS.Number) : Eff unit :=
  Eff.emit (Eff.SubmitterInvoked recipient amount) ;;
  settle on_success on_error (submitter recipient amount).

Definition transferTokens : string -> JS.Number -> Eff unit :=
  useTransferTokens onSuccess onError.

(** [handleSubmit(onValid)] of [useForm] with the schema's resolver: the
    values are validated first; [onValid] runs only on valid values, and
    otherwise the errors are stored and nothing else happens. *)
Definition handleSubmit (onValid : TransferTokenValues -> Eff unit)
           (values : TransferTokenValues) : FieldErrors * Eff unit :=
  match zodResolver values with
  | inl data => (no_errors, onValid data)
  | inr errs => (errs, Eff.ret tt)
  end.

(** The [onSubmit] handler of the form. *)
Definition onSubmit (values : TransferTokenValues) : FieldErrors * Eff unit :=
  handleSubmit (fun values => transferTokens (recipient values) (amount values))
               values.

(** The line under the amount input: the error of the field, or else the
    balance line. *)
Inductive AmountInfo : Type :=
| InfoMessage (message : string)
| InfoBalance (currentBalance : JS.Number) (symbol : string).

Inductive SubmitLabel : Type := LoaderCubes | RequestTransfer.

(** The form as rendered. *)
Record Form : Type :=
  { tokenValue : string;
    recipientError : bool;
    recipientInfo : string;
    amountError : bool;
    amountInfo : AmountInfo;
    maxValue : JS.Number;          (* what the Max button sets the amount to *)
    submitDisabled : bool;
    submitLabel : SubmitLabel;
    submit : TransferTokenValues -> FieldErrors * Eff unit }.

Inductive Screen : Type :=
| Spinner
| FormScreen (f : Form).

Definition is_some {A} (o : option A) : bool :=
  match o with Some _ => true | None => false end.

Definition or_empty (o : option string) : string :=
  match o with Some s => s | None => EmptyString end.

(** [balances?.length], with [undefined] read as 0 by the negation that
    follows it. *)
Definition length_of (bs : option (list Ft4.Balance)) : nat :=
  match bs with Some l => List.length l | None => 0 end.

(** The guard of the early return: [isLoading || !balances?.length]. *)
Definition guard (store : BalanceStore) : bool :=
  isLoading store || (length_of (balances store) =? 0)%nat.

(** The part of the render after the early return.  Reading index 0 of
    an empty or missing list yields [undefined], and the property read on
    it throws.  A balance always carries its asset and the asset its
    symbol, so of the fallback in [symbol?.toUpperCase() || 'TOKEN'] the
    case that remains is the empty symbol. *)
Definition form_body (store : BalanceStore) (st : FormState) : Rendered Screen :=
  match balances store with
  | None => Throws TypeError
  | Some l =>
      match nth_error l 0 with
      | None => Throws TypeError
      | Some b0 =>
          let currentBalance := Number_of (Ft4.amount_toString b0) in
          let symbol :=
            JS.or_else (JS.toUpperCase (Ft4.symbol (Ft4.asset b0))) "TOKEN" in
          View (FormScreen
            {| tokenValue := symbol;
               recipientError := is_some (errors_recipient (errors st));
               recipientInfo := or_empty (errors_recipient (errors st));
               amountError := is_some (errors_amount (errors st));
               amountInfo :=
                 match errors_amount (errors st) with
                 | Some m => InfoMessage m
                 | None => InfoBalance currentBalance symbol
                 end;
               maxValue := currentBalance;
               submitDisabled := isSubmitting st;
               submitLabel :=
                 if isSubmitting st then LoaderCubes else RequestTransfer;
               submit := onSubmit |})
      end
  end.

(** The component. *)
Definition TransferForm (store : BalanceStore) (st : FormState)
  : Rendered Screen :=
  if guard store then View Spinner else form_body store st.

(** A submission through the screen: only a rendered form has a submit
    handler. *)
Definition submit_on (r : Rendered Screen) (values : TransferTokenValues)
  : option (FieldErrors * Eff unit) :=
  match r with
  | View (FormScreen f) => Some (submit f values)
  | _ => None
  end.

(** The current known balance of the asset the form transfers, as the
    latest snapshot holds it: the display amount of the first balance. *)
Definition knownBalance (store : BalanceStore) : option Q :=
  match balances store with
  | Some (b0 :: _) => Some (Ft4.displayAmount b0)
  | _ => None
  end.

End Component.
End TransferForm.

(** ** The Max button *)

(** [setValue('amount', x)] of [useForm]: the amount among the form's
    values is replaced, the recipient is kept. *)
Definition setValue_amount (x : JS.Number) (values : TransferTokenValues)
  : TransferTokenValues :=
  {| recipient := recipient values; amount := x |}.

(** The click handler of the Max button of a rendered form:
    [() => setValue('amount', currentBalance)]. *)
Definition onMaxClick {Token Reason : Type}
           (f : TransferForm.Form Token Reason)
           (values : TransferTokenValues) : TransferTokenValues :=
  setValue_amount (TransferForm.maxValue f) values.

(* ===================================================================== *)
(** ** The life cycle of one form instance *)
(* ===================================================================== *)

Module Lifecycle.
Section Machine.

Variables Token Reason : Type.
Variable submitter : string -> JS.Number -> TransferOutcome Token Reason.
Variables balanceRefresh historyRefresh : Settlement.
Variable Number_of : Ft4.Decimal -> JS.Number.

(** A call of [handleSubmit] that has not returned yet: it is validating
    the values, or awaiting the promise of [transferTokens]. *)
Inductive Job : Type :=
| Validating (values : TransferTokenValues)
| Awaiting (values : TransferTokenValues).

(** One mounted form: the store it reads, its form state, and the calls
    of [handleSubmit] still running.  Nothing in the form library keeps
    two calls from running at once. *)
Record State : Type :=
  { store : BalanceStore; form : FormState; running : list Job }.

Definition screen (s : State) : Rendered (TransferForm.Screen Token Reason) :=
  TransferForm.TransferForm submitter balanceRefresh historyRefresh Number_of
    (store s) (form s).

Definition initial (st : BalanceStore) : State :=
  {| store := st;
     form := {| errors := no_errors; isSubmitting := false |};
     running := [] |}.

(** The ways a submit event reaches the [onSubmit] handler of the
    rendered form.
    - [RequestTransferButton]: the button of type submit at the foot of
      the form, which carries [disabled={isSubmitting}].
    - [MaxButton]: the Max button sits inside the form and is given
      neither a type nor a disabled state; a button element of a form
      without a type is a submit button, so its press submits the form
      once its click handler has run.
    - [DirectSubmit]: a submit event dispatched on the form itself; the
      handler is attached to the form and does not look at
      [isSubmitting]. *)
Inductive Route : Type :=
| RequestTransferButton
| MaxButton
| DirectSubmit.

(** Whether the rendered form lets a submit event through by a route:
    only the button at the foot of the form is ever disabled. *)
Definition route_open (f : TransferForm.Form Token Reason) (r : Route) : bool :=
  match r with
  | RequestTransferButton => negb (TransferForm.submitDisabled f)
  | MaxButton => true
  | DirectSubmit => true
  end.

(** The values the handler receives: the Max button has set the amount
    before the form is submitted. *)
Definition submitted_values (f : TransferForm.Form Token Reason) (r : Route)
           (values : TransferTokenValues) : TransferTokenValues :=
  match r with
  | MaxButton => onMaxClick f values
  | _ => values
  end.

(** The handler of the form, [handleSubmit(values => transferTokens(...))],
    run on the values of one call. *)
Definition handler (values : TransferTokenValues)
  : FieldErrors * Eff.t Token Reason unit :=
  TransferForm.onSubmit submitter balanceRefresh historyRefresh values.

(** The moves of a form instance.
    - The store publishes a new snapshot.
    - A submit event reaches the rendered form by an open route:
      [handleSubmit] starts and sets [isSubmitting].
    - A running call whose handler stops after the resolver, without
      calling [transferTokens]: the handler's errors are stored,
      [handleSubmit] returns and clears [isSubmitting].
    - A running call whose handler calls [transferTokens]: the handler's
      errors are stored and the promise is awaited.
    - An awaited attempt settles: [handleSubmit] returns and clears
      [isSubmitting]. *)
Inductive step : State -> State -> Prop :=
| store_changed s store' :
    step s {| store := store'; form := form s; running := running s |}
| submit_event s f route values :
    screen s = View (TransferForm.FormScreen f) ->
    route_open f route = true ->
    step s {| store := store s;
              form := {| errors := errors (form s); isSubmitting := true |};
              running := Validating (submitted_values f route values)
                           :: running s |}
| validation_failed s pre post values :
    running s = (pre ++ Validating values :: post)%list ->
    Eff.trace (snd (handler values)) = [] ->
    step s {| store := store s;
              form := {| errors := fst (handler values);
                         isSubmitting := false |};
              running := (pre ++ post)%list |}
| validation_passed s pre post values to sum rest :
    running s = (pre ++ Validating values :: post)%list ->
    Eff.trace (snd (handler values)) = Eff.SubmitterInvoked to sum :: rest ->
    step s {| store := store s;
              form := {| errors := fst (handler values);
                         isSubmitting := isSubmitting (form s) |};
              running := (pre ++ Awaiting values :: post)%list |}
| attempt_settled s pre post values :
    running s = (pre ++ Awaiting values :: post)%list ->
    step s {| store := store s;
              form := {| errors := errors (form s); isSubmitting := false |};
              running := (pre ++ post)%list |}.

Inductive reachable : State -> Prop :=
| reachable_initial st : reachable (initial st)
| reachable_step s s' : reachable s -> step s s' -> reachable s'.

(** A move starts a submission when it adds a running call. *)
Definition starts_submission (s s' : State) : Prop :=
  step s s' /\ (List.length (running s) < List.length (running s'))%nat.

End Machine.
End Lifecycle.

(* ===================================================================== *)
(** ** The token list *)
(* ===================================================================== *)

Module TokenList.

(** The properties of the component that decide what it shows; both
    default to [false]. *)
Record Props : Type := { compact : bool; fullList : bool }.

Definition showCompact (p : Props) : bool := compact p && negb (fullList p).

(** [balances.slice(0, 3)] in compact mode, the whole list otherwise. *)
Definition displayBalances (p : Props) (balances : list Ft4.Balance)
  : list Ft4.Balance :=
  if showCompact p then firstn 3 balances else balances.

Definition hasMore (p : Props) (balances : list Ft4.Balance) : bool :=
  showCompact p && (1 <? List.length balances)%nat.

(** The heading: absent in the full list, otherwise "Your Assets" with
    the count when there is at least one balance. *)
Inductive Heading : Type :=
| NoHeading
| YourAssets (count : option nat).

(** A row of the list: what it shows of its balance (the layout and the
    constant price placeholder are left out). *)
Record Row : Type :=
  { key : nat;
    iconSrc : string;
    iconAlt : string;
    symbolText : string;
    amountText : string }.

Inductive Body : Type :=
| Rows (rows : list Row) (bottomPadding : bool)
| NothingFound.

Record TokenListView : Type :=
  { heading : Heading;
    viewAllButton : bool;
    loadingIndicator : bool;
    body : Body }.

(** The amount shown in a row:
    [convertToRawAmount(amount.toString(), decimals).value.toString()]. *)
Definition amountCell (b : Ft4.Balance) : Rendered string :=
  match Ft4.convertToRawAmount (Ft4.Dec (Ft4.amount_toString b))
                               (Ft4.decimals (Ft4.asset b)) with
  | inl value => View (JS.bigint_toString value)
  | inr e => Throws (ConvertFailed e)
  end.

Definition renderRow (index : nat) (b : Ft4.Balance) : Rendered Row :=
  match amountCell b with
  | View text =>
      View {| key := index;
              iconSrc := Ft4.iconUrl (Ft4.asset b);
              iconAlt := Ft4.symbol (Ft4.asset b);
              symbolText := Ft4.symbol (Ft4.asset b);
              amountText := text |}
  | Throws e => Throws e
  end.

(** [displayBalances.map((balance, index) => ...)]: an exception in one
    row aborts the render. *)
Fixpoint renderRows (index : nat) (bs : list Ft4.Balance)
  : Rendered (list Row) :=
  match bs with
  | [] => View []
  | b :: rest =>
      match renderRow index b with
      | Throws e => Throws e
      | View r =>
          match renderRows (S index) rest with
          | Throws e => Throws e
          | View rs => View (r :: rs)
          end
      end
  end.

(** The component. *)
Definition TokenList (p : Props) (balances : list Ft4.Balance)
           (isLoadingBalances : bool) : Rendered TokenListView :=
  let shown := displayBalances p balances in
  let head :=
    if negb (fullList p)
    then YourAssets (match List.length balances with
                     | O => None
                     | n => Some n
                     end)
    else NoHeading in
  let button := showCompact p && hasMore p balances in
  match shown with
  | [] =>
      View {| heading := head; viewAllButton := button;
              loadingIndicator := isLoadingBalances; body := NothingFound |}
  | _ =>
      match renderRows 0 shown with
      | Throws e => Throws e
      | View rows =>
          View {| heading := head; viewAllButton := button;
                  loadingIndicator := isLoadingBalances;
                  body := Rows rows (fullList p) |}
      end
  end.

(** The presenter's output in the words of the specification: the
    entries shown, whether the list is flagged as truncated, and the
    total count. *)
Definition visible := displayBalances.
Definition truncated := hasMore.
Definition totalCount (balances : list Ft4.Balance) : nat := List.length balances.

End TokenList.

(* ===================================================================== *)
(** * Properties *)
(* ===================================================================== *)

(** ** The schema *)

Definition nonempty (s : string) : Prop := s <> EmptyString.

(** A number within the bounds of the schema: finite, at least 1 and at
    most 100 000. *)
Definition within_bounds (x : JS.Number) : Prop :=
  exists q, x = JS.Finite q /\ (1 <= q)%Q /\ (q <= 100000)%Q.

(** A strictly positive number that does not exceed 100 000. *)
Definition positive_up_to_max (x : JS.Number) : Prop :=
  exists q, x = JS.Finite q /\ (0 < q)%Q /\ (q <= 100000)%Q.

(** ** Vocabulary of the workflow properties *)

(** The submitter is invoked somewhere in a trace. *)
Definition invokes_submitter {Token Reason : Type}
           (tr : list (Eff.Event Token Reason)) : Prop :=
  exists r a, In (Eff.SubmitterInvoked r a) tr.

(** A submission is rejected during local validation: an error is
    reported and the submitter is not invoked. *)
Definition rejected_locally {Token Reason : Type}
           (r : FieldErrors * Eff.t Token Reason unit) : Prop :=
  fst r <> no_errors /\ ~ invokes_submitter (Eff.trace (snd r)).

(** The requested amount exceeds the current known balance. *)
Definition exceeds_known_balance (store : BalanceStore)
           (values : TransferTokenValues) : Prop :=
  exists q, TransferForm.knownBalance store = Some q
            /\ JS.gtb (amount values) (JS.Finite q) = true.

(** ** Sample data

    The scenario of the specification: a balance of 500 units of an
    asset with 6 decimals, a submitter that accepts every request with
    the reference "0xabc", refreshes that succeed. *)

Definition chr : Ft4.Asset :=
  {| Ft4.symbol := "chr"; Ft4.decimals := 6; Ft4.iconUrl := "/chr.svg" |}.

Definition usdt : Ft4.Asset :=
  {| Ft4.symbol := "usdt"; Ft4.decimals := 2; Ft4.iconUrl := "/usdt.svg" |}.

Definition balance_500 : Ft4.Balance :=
  {| Ft4.asset := chr; Ft4.rawAmount := 500000000 |}.

Definition balance_usdt : Ft4.Balance :=
  {| Ft4.asset := usdt; Ft4.rawAmount := 1250 |}.

Definition store_500 : BalanceStore :=
  {| balances := Some [balance_500]; isLoading := false |}.

Definition idle : FormState :=
  {| errors := no_errors; isSubmitting := false |}.

Definition accepting_submitter (_ : string) (_ : JS.Number)
  : TransferOutcome string string := Success "0xabc"%string.

Definition exact_Number_of (d : Ft4.Decimal) : JS.Number :=
  JS.Finite (Qred (Ft4.Decimal_value d)).

Definition request (to : string) (q : Q) : TransferTokenValues :=
  {| recipient := to; amount := JS.Finite q |}.

(** The form right after the user has pressed the submit button. *)
Definition submitting_state : Lifecycle.State :=
  {| Lifecycle.store := store_500;
     Lifecycle.form := {| errors := no_errors; isSubmitting := true |};
     Lifecycle.running := [Lifecycle.Validating (request "alice" 100)] |}.

Definition compact_mode : TokenList.Props :=
  {| TokenList.compact := true; TokenList.fullList := false |}.

Definition default_mode : TokenList.Props :=
  {| TokenList.compact := false; TokenList.fullList := false |}.

Definition compact_and_full : TokenList.Props :=
  {| TokenList.compact := true; TokenList.fullList := true |}.

(** ** Further vocabulary and sample data *)

(** Values that pass both fields of the schema. *)
Definition valid_values (v : TransferTokenValues) : Prop :=
  nonempty (recipient v) /\ within_bounds (amount v).

(** A submitter that refuses every request. *)
Definition rejecting_submitter (_ : string) (_ : JS.Number)
  : TransferOutcome string string := Failure "RejectedByNetwork"%string.

(** The form while the promise of [transferTokens] is awaited. *)
Definition awaiting_state : Lifecycle.State :=
  {| Lifecycle.store := store_500;
     Lifecycle.form := {| errors := no_errors; isSubmitting := true |};
     Lifecycle.running := [Lifecycle.Awaiting (request "alice" 100)] |}.



(** A string of ASCII characters only. *)
Definition ascii_only (s : string) : Prop :=
  forall c, In c (list_ascii_of_string s) -> (nat_of_ascii c < 128)%nat.

Definition four_balances : list Ft4.Balance :=
  [balance_500; balance_usdt; balance_usdt; balance_500].

Lemma recipient_schema_empty : recipient_schema EmptyString = [recipient_required].
Proof. reflexivity. Qed.

Lemma recipient_schema_nonempty s : nonempty s -> recipient_schema s = [].
Proof.
  destruct s as [|c s']; [intros H; now elim H | reflexivity].
Qed.

Lemma ofZ_le_ltb (z : Z) (q : Q) :
  JS.ltb (JS.Finite q) (JS.ofZ z) = false <-> (inject_Z z <= q)%Q.
Proof.
  unfold JS.ofZ; simpl. rewrite negb_false_iff. apply Qle_bool_iff.
Qed.

Lemma ofZ_ge_gtb (z : Z) (q : Q) :
  JS.gtb (JS.Finite q) (JS.ofZ z) = false <-> (q <= inject_Z z)%Q.
Proof.
  unfold JS.gtb, JS.ofZ; simpl. rewrite negb_false_iff. apply Qle_bool_iff.
Qed.

(** The amount passes the schema exactly when it is a finite number
    between 1 and 100 000, both included. *)
Lemma amount_schema_accepts x : amount_schema x = [] <-> within_bounds x.
Proof.
  unfold amount_schema, Zod.number, within_bounds.
  destruct x as [| |q|]; simpl.
  - split; [discriminate | intros (q & E & _); discriminate].
  - split; [discriminate | intros (q & E & _); discriminate].
  - unfold Zod.number_min, Zod.number_max.
    destruct (JS.ltb (JS.Finite q) (JS.ofZ 1)) eqn:Hlo;
      destruct (JS.gtb (JS.Finite q) (JS.ofZ 100000)) eqn:Hhi; simpl.
    + split; [discriminate|]. intros (q' & E & Hl & _). injection E as <-.
      apply (ofZ_le_ltb 1) in Hl. congruence.
    + split; [discriminate|]. intros (q' & E & Hl & _). injection E as <-.
      apply (ofZ_le_ltb 1) in Hl. congruence.
    + split; [discriminate|]. intros (q' & E & _ & Hh). injection E as <-.
      apply (ofZ_ge_gtb 100000) in Hh. congruence.
    + split; [intros _ | reflexivity]. exists q. split; [reflexivity|].
      split; [apply (ofZ_le_ltb 1), Hlo | apply (ofZ_ge_gtb 100000), Hhi].
  - split; [discriminate | intros (q & E & _); discriminate].
Qed.

(** What the resolver answers on values that pass both fields. *)
Lemma zodResolver_valid v :
  nonempty (recipient v) -> within_bounds (amount v) -> zodResolver v = inl v.
Proof.
  intros Hr Ha. unfold zodResolver, transferTokenSchema.
  rewrite (recipient_schema_nonempty Hr).
  apply amount_schema_accepts in Ha. rewrite Ha. reflexivity.
Qed.

(** The error the resolver reports for an empty recipient. *)
Lemma zodResolver_empty_recipient v :
  recipient v = EmptyString ->
  exists errs, zodResolver v = inr errs
               /\ errors_recipient errs = Some recipient_required.
Proof.
  intros Hr. unfold zodResolver, transferTokenSchema. rewrite Hr.
  rewrite recipient_schema_empty. simpl. eexists; split; reflexivity.
Qed.

(** ** The trace monad *)

Lemma trace_bind {Token Reason A B} (m : Eff.t Token Reason A)
      (k : A -> Eff.t Token Reason B) :
  Eff.trace (Eff.bind m k)
  = (Eff.trace m ++ match snd m with
                    | Eff.Returned a => Eff.trace (k a)
                    | Eff.Thrown _ => []
                    end)%list.
Proof.
  destruct m as [tr [a|]]; simpl.
  - destruct (k a) as [tr' r]; reflexivity.
  - now rewrite app_nil_r.
Qed.

Lemma precedes_cons_other {E} (earlier later e : E) tr :
  e <> later -> precedes earlier later tr -> precedes earlier later (e :: tr).
Proof.
  intros Hne H pre (post & Heq).
  destruct pre as [|x pre]; simpl in Heq.
  - injection Heq as He _. congruence.
  - injection Heq as _ Heq. right. apply H. now exists post.
Qed.

Lemma precedes_after {E} (earlier later : E) tr :
  earlier <> later -> precedes earlier later (earlier :: tr).
Proof.
  intros Hne pre (post & Heq).
  destruct pre as [|x pre]; simpl in Heq.
  - injection Heq as He _. congruence.
  - injection Heq as Hx _. subst. now left.
Qed.

Lemma precedes_absent {E} (earlier later : E) tr :
  ~ In later tr -> precedes earlier later tr.
Proof.
  intros Hn pre (post & Heq). exfalso. apply Hn. rewrite Heq.
  apply in_or_app. right. now left.
Qed.

(** ** The transfer workflow *)

Section TransferWorkflow.

Variables Token Reason : Type.
Variable submitter : string -> JS.Number -> TransferOutcome Token Reason.
Variable Number_of : Ft4.Decimal -> JS.Number.

Local Abbreviation Ev := (Eff.Event Token Reason).

(** The events of the success handler, in order: the modal, the two
    refreshes, and the return to the caller unless a refresh rejected. *)
Lemma onSuccess_trace (bR hR : Settlement) (token : Token) :
  Eff.trace (TransferForm.onSuccess Reason bR hR token)
  = ([Eff.SuccessModalShown token;
      Eff.BalanceRefreshInitiated;
      Eff.HistoryRefreshInitiated]
     ++ match Promise_all [bR; hR] with
        | Fulfilled => [Eff.OnBack]
        | Rejected => []
        end)%list.
Proof. destruct bR, hR; reflexivity. Qed.

(** Valid values reach [transferTokens] unchanged. *)
Lemma onSubmit_valid (bR hR : Settlement) (values : TransferTokenValues) :
  nonempty (recipient values) -> within_bounds (amount values) ->
  TransferForm.onSubmit submitter bR hR values
  = (no_errors,
     TransferForm.transferTokens submitter bR hR
       (recipient values) (amount values)).
Proof.
  intros Hr Ha. unfold TransferForm.onSubmit, TransferForm.handleSubmit.
  now rewrite (zodResolver_valid values Hr Ha).
Qed.

(** Values the resolver refuses never reach [transferTokens]. *)
Lemma onSubmit_invalid (bR hR : Settlement) (values : TransferTokenValues) errs :
  zodResolver values = inr errs ->
  TransferForm.onSubmit submitter bR hR values = (errs, Eff.ret tt).
Proof.
  intros H. unfold TransferForm.onSubmit, TransferForm.handleSubmit.
  now rewrite H.
Qed.

(** A submission through the screen is a call of the form's handler. *)
Lemma submit_on_onSubmit (bR hR : Settlement) store st values r :
  TransferForm.submit_on
    (TransferForm.TransferForm submitter bR hR Number_of store st) values
  = Some r ->
  r = TransferForm.onSubmit submitter bR hR values.
Proof.
  unfold TransferForm.TransferForm, TransferForm.form_body.
  destruct (TransferForm.guard store); simpl; [discriminate|].
  destruct (balances store) as [[|b0 rest]|]; simpl; try discriminate.
  congruence.
Qed.

(** Behind the guard the form is rendered from the first balance. *)
Lemma TransferForm_renders (bR hR : Settlement) store st :
  TransferForm.guard store = false ->
  exists b0 rest f,
    balances store = Some (b0 :: rest)
    /\ TransferForm.TransferForm submitter bR hR Number_of store st
       = View (TransferForm.FormScreen f)
    /\ TransferForm.maxValue f = Number_of (Ft4.amount_toString b0)
    /\ TransferForm.tokenValue f
       = JS.or_else (JS.toUpperCase (Ft4.symbol (Ft4.asset b0))) "TOKEN"
    /\ TransferForm.submitDisabled f = isSubmitting st
    /\ TransferForm.submit f = TransferForm.onSubmit submitter bR hR.
Proof.
  unfold TransferForm.TransferForm, TransferForm.form_body. intros Hg.
  rewrite Hg. unfold TransferForm.guard in Hg.
  apply orb_false_iff in Hg as [_ Hlen].
  destruct (balances store) as [[|b0 rest]|]; simpl in Hlen; try discriminate.
  exists b0, rest. eexists. split; [reflexivity|]. simpl.
  split; [reflexivity|]. simpl. repeat split.
Qed.

End TransferWorkflow.

(** *** Local validation *)

(** C7. For every request whose recipient is the empty string, the submit
    handler reports a validation error on the recipient field
    ("Recipient is required") and returns without any event: no
    collaborator, and in particular not the transfer submitter, is
    invoked.  The same holds for a submission through any rendered
    screen. *)
Theorem empty_recipient_rejected
        (Token Reason : Type)
        (submitter : string -> JS.Number -> TransferOutcome Token Reason)
        (bR hR : Settlement) (Number_of : Ft4.Decimal -> JS.Number)
        (store : BalanceStore) (st : FormState)
        (values : TransferTokenValues) :
  recipient values = EmptyString ->
  let r := TransferForm.onSubmit submitter bR hR values in
  errors_recipient (fst r) = Some recipient_required
  /\ Eff.trace (snd r) = []
  /\ rejected_locally r
  /\ (forall r',
         TransferForm.submit_on
           (TransferForm.TransferForm submitter bR hR Number_of store st)
           values = Some r' -> r' = r).
Proof.
  intros Hr r.
  destruct (zodResolver_empty_recipient values Hr) as (errs & Hres & Herr).
  assert (Hr' : r = (errs, Eff.ret tt))
    by (apply onSubmit_invalid; exact Hres).
  rewrite Hr'. simpl. split; [exact Herr|]. split; [reflexivity|].
  split.
  - split.
    + simpl. intros Hno. rewrite Hno in Herr. discriminate.
    + simpl. intros (x & a & Hin). exact Hin.
  - intros r' H. rewrite <- Hr'. eapply submit_on_onSubmit; eassumption.
Qed.

Lemma empty_recipient_rejected_witness :
  let r := TransferForm.onSubmit accepting_submitter Fulfilled Fulfilled
             (request EmptyString 100) in
  errors_recipient (fst r) = Some recipient_required
  /\ Eff.trace (snd r) = []
  /\ rejected_locally r
  /\ (forall r',
         TransferForm.submit_on
           (TransferForm.TransferForm accepting_submitter Fulfilled Fulfilled
              exact_Number_of store_500 idle)
           (request EmptyString 100) = Some r' -> r' = r).
Proof.
  apply (@empty_recipient_rejected string string accepting_submitter
           Fulfilled Fulfilled exact_Number_of store_500 idle
           (request EmptyString 100)).
  reflexivity.
Defined.

(** The amount 0 is refused on the amount field, and nothing is invoked. *)
Lemma zero_amount_rejected
      (Token Reason : Type)
      (submitter : string -> JS.Number -> TransferOutcome Token Reason)
      (bR hR : Settlement) (to : string) :
  let r := TransferForm.onSubmit submitter bR hR (request to 0) in
  errors_amount (fst r) = Some amount_too_small /\ Eff.trace (snd r) = [].
Proof.
  unfold TransferForm.onSubmit, TransferForm.handleSubmit, zodResolver,
    transferTokenSchema.
  destruct to as [|c to']; simpl; split; reflexivity.
Qed.

(** Every amount above 100 000 is refused on the amount field. *)
Lemma over_max_amount_rejected (q : Q) :
  (100000 < q)%Q -> amount_schema (JS.Finite q) = [amount_too_big].
Proof.
  intros Hq. unfold amount_schema, Zod.number; simpl.
  unfold Zod.number_min, Zod.number_max, JS.gtb, JS.ofZ; simpl.
  assert (H1 : Qle_bool (inject_Z 1) q = true).
  { apply Qle_bool_iff. apply Qlt_le_weak.
    apply Qlt_trans with (y := 100000%Q); [reflexivity | exact Hq]. }
  assert (H2 : Qle_bool q (inject_Z 100000) = false).
  { apply not_true_is_false. intros H. apply Qle_bool_iff in H.
    apply (Qlt_not_le _ _ Hq). exact H. }
  rewrite H1, H2. reflexivity.
Qed.

(** C3. The schema refuses the amount 1/2, a positive amount below the
    maximum, with the message of the lower bound, "Amount should be
    greater than 0": the bound it tests is 1, not 0. *)
Theorem half_unit_amount_rejected :
  positive_up_to_max (JS.Finite (1 # 2))
  /\ amount_schema (JS.Finite (1 # 2)) = [amount_too_small]
  /\ (forall to : string,
         exists errs,
           zodResolver (request to (1 # 2)) = inr errs
           /\ errors_amount errs = Some amount_too_small).
Proof.
  split; [|split].
  - exists (1 # 2). split; [reflexivity|]. split; reflexivity || discriminate.
  - reflexivity.
  - intros to. destruct to as [|c to']; eexists; split; reflexivity.
Qed.

(** C1 as stated fails: with a known balance of 500 and a request for
    600, the amount exceeds the balance, yet the submission through the
    rendered form is not rejected locally: no error is reported and the
    submitter is invoked. *)
Lemma insufficient_balance_not_checked :
  exceeds_known_balance store_500 (request "alice" 600)
  /\ exists r,
      TransferForm.submit_on
        (TransferForm.TransferForm accepting_submitter Fulfilled Fulfilled
           exact_Number_of store_500 idle)
        (request "alice" 600) = Some r
      /\ fst r = no_errors
      /\ invokes_submitter (Eff.trace (snd r))
      /\ ~ rejected_locally r.
Proof.
  split.
  - eexists. split; [reflexivity | vm_compute; reflexivity].
  - eexists. split; [reflexivity|]. split; [reflexivity|]. split.
    + exists "alice"%string, (JS.Finite 600). left. reflexivity.
    + intros [Hne _]. apply Hne. reflexivity.
Qed.

(** C1, amended. The known balance plays no part in local validation: a
    request whose amount exceeds the current known balance, with a
    non-empty recipient and an amount between 1 and 100 000, submitted
    through the rendered form, reports no validation error, and the
    transfer submitter is invoked with its recipient and amount. *)
Theorem exceeding_balance_reaches_submitter
        (Token Reason : Type)
        (submitter : string -> JS.Number -> TransferOutcome Token Reason)
        (bR hR : Settlement) (Number_of : Ft4.Decimal -> JS.Number)
        (store : BalanceStore) (st : FormState)
        (values : TransferTokenValues) :
  TransferForm.guard store = false ->
  exceeds_known_balance store values ->
  nonempty (recipient values) ->
  within_bounds (amount values) ->
  exists eff rest,
    TransferForm.submit_on
      (TransferForm.TransferForm submitter bR hR Number_of store st) values
    = Some (no_errors, eff)
    /\ Eff.trace eff
       = Eff.SubmitterInvoked (recipient values) (amount values) :: rest
    /\ ~ rejected_locally (no_errors, eff).
Proof.
  intros Hg _ Hr Ha.
  destruct (TransferForm_renders submitter Number_of bR hR store st Hg)
    as (b0 & tl & f & _ & Hscreen & _ & _ & _ & Hsubmit).
  rewrite Hscreen. simpl. rewrite Hsubmit, (onSubmit_valid submitter bR hR values Hr Ha).
  eexists. eexists. split; [reflexivity|]. split.
  - unfold TransferForm.transferTokens, TransferForm.useTransferTokens.
    rewrite trace_bind. simpl. reflexivity.
  - intros [Hne _]. apply Hne. reflexivity.
Qed.

Lemma exceeding_balance_reaches_submitter_witness :
  exists eff rest,
    TransferForm.submit_on
      (TransferForm.TransferForm accepting_submitter Fulfilled Fulfilled
         exact_Number_of store_500 idle) (request "alice" 600)
    = Some (no_errors, eff)
    /\ Eff.trace eff = Eff.SubmitterInvoked "alice" (JS.Finite 600) :: rest
    /\ ~ rejected_locally (no_errors, eff).
Proof.
  apply (@exceeding_balance_reaches_submitter string string
           accepting_submitter Fulfilled Fulfilled exact_Number_of
           store_500 idle (request "alice" 600)).
  - reflexivity.
  - eexists. split; [reflexivity | vm_compute; reflexivity].
  - discriminate.
  - exists 600%Q. split; [reflexivity|]. split; vm_compute; discriminate.
Defined.

(** *** Settling *)

(** C2 as stated fails: in the accepted request for 100 units the success
    outcome is reported, by the success modal, before either refresh is
    initiated. *)
Lemma success_reported_before_refreshes :
  let tr := Eff.trace (snd (TransferForm.onSubmit accepting_submitter
                              Fulfilled Fulfilled (request "alice" 100))) in
  In (Eff.SuccessModalShown "0xabc"%string) tr
  /\ ~ precedes Eff.BalanceRefreshInitiated
                (Eff.SuccessModalShown "0xabc"%string) tr
  /\ ~ precedes Eff.HistoryRefreshInitiated
                (Eff.SuccessModalShown "0xabc"%string) tr.
Proof.
  assert (Hocc : occurs_after
                   [Eff.SubmitterInvoked "alice" (JS.Finite 100)]
                   (Eff.SuccessModalShown "0xabc"%string)
                   (Eff.trace (snd (TransferForm.onSubmit
                      (Reason := string) accepting_submitter
                      Fulfilled Fulfilled (request "alice" 100))))).
  { eexists. reflexivity. }
  split; [right; left; reflexivity|].
  split; intros H; destruct (H _ Hocc) as [Heq | []]; discriminate Heq.
Qed.

(** C2, amended. On every successful submission (valid values, the
    submitter answers with a token) the events of the workflow are, in
    order: the submitter is invoked, the success modal is shown, the
    balance refresh is initiated, the history refresh is initiated, and,
    once both refreshes have completed, the caller's [onBack] callback is
    called.  Hence both refreshes are initiated; they are initiated after
    the success outcome has been reported by the modal, and before the
    form returns to its caller. *)
Theorem refreshes_initiated_after_modal
        (Token Reason : Type)
        (submitter : string -> JS.Number -> TransferOutcome Token Reason)
        (bR hR : Settlement)
        (values : TransferTokenValues) (token : Token) :
  nonempty (recipient values) ->
  within_bounds (amount values) ->
  submitter (recipient values) (amount values) = Success token ->
  let tr := Eff.trace (snd (TransferForm.onSubmit submitter bR hR values)) in
  tr = ([Eff.SubmitterInvoked (recipient values) (amount values);
         Eff.SuccessModalShown token;
         Eff.BalanceRefreshInitiated;
         Eff.HistoryRefreshInitiated]
        ++ match Promise_all [bR; hR] with
           | Fulfilled => [Eff.OnBack]
           | Rejected => []
           end)%list
  /\ In Eff.BalanceRefreshInitiated tr
  /\ In Eff.HistoryRefreshInitiated tr
  /\ precedes (Eff.SuccessModalShown token) Eff.BalanceRefreshInitiated tr
  /\ precedes (Eff.SuccessModalShown token) Eff.HistoryRefreshInitiated tr
  /\ precedes Eff.BalanceRefreshInitiated Eff.OnBack tr
  /\ precedes Eff.HistoryRefreshInitiated Eff.OnBack tr.
Proof.
  intros Hr Ha Hok tr.
  assert (Htr : tr = ([Eff.SubmitterInvoked (recipient values) (amount values);
                       Eff.SuccessModalShown token;
                       Eff.BalanceRefreshInitiated;
                       Eff.HistoryRefreshInitiated]
                      ++ match Promise_all [bR; hR] with
                         | Fulfilled => [Eff.OnBack]
                         | Rejected => []
                         end)%list).
  { unfold tr. rewrite (onSubmit_valid submitter bR hR values Hr Ha). simpl snd.
    unfold TransferForm.transferTokens, TransferForm.useTransferTokens.
    rewrite trace_bind. simpl snd. rewrite Hok. simpl TransferForm.settle.
    rewrite onSuccess_trace. reflexivity. }
  split; [exact Htr|]. rewrite Htr. simpl.
  split; [auto|]. split; [auto|].
  repeat split.
  - apply precedes_cons_other; [discriminate|].
    apply precedes_after. discriminate.
  - apply precedes_cons_other; [discriminate|].
    apply precedes_after. discriminate.
  - apply precedes_cons_other; [discriminate|].
    apply precedes_cons_other; [discriminate|].
    apply precedes_after. discriminate.
  - apply precedes_cons_other; [discriminate|].
    apply precedes_cons_other; [discriminate|].
    apply precedes_cons_other; [discriminate|].
    apply precedes_after. discriminate.
Qed.

Lemma refreshes_initiated_after_modal_witness :
  let tr := Eff.trace (snd (TransferForm.onSubmit accepting_submitter
                              Fulfilled Fulfilled (request "alice" 100))) in
  tr = [Eff.SubmitterInvoked "alice" (JS.Finite 100);
        Eff.SuccessModalShown "0xabc"%string;
        Eff.BalanceRefreshInitiated;
        Eff.HistoryRefreshInitiated;
        Eff.OnBack]
  /\ In Eff.BalanceRefreshInitiated tr
  /\ In Eff.HistoryRefreshInitiated tr
  /\ precedes (Eff.SuccessModalShown "0xabc"%string)
              Eff.BalanceRefreshInitiated tr
  /\ precedes (Eff.SuccessModalShown "0xabc"%string)
              Eff.HistoryRefreshInitiated tr
  /\ precedes Eff.BalanceRefreshInitiated Eff.OnBack tr
  /\ precedes Eff.HistoryRefreshInitiated Eff.OnBack tr.
Proof.
  apply (@refreshes_initiated_after_modal string string accepting_submitter
           Fulfilled Fulfilled (request "alice" 100) "0xabc"%string).
  - discriminate.
  - exists 100%Q. split; [reflexivity|]. split; vm_compute; discriminate.
  - reflexivity.
Defined.

(** *** The guard of the form *)

(** Without the early return the render would throw on an empty or
    missing list: the guard is what protects the read of index 0. *)
Lemma form_body_unguarded
      (Token Reason : Type)
      (submitter : string -> JS.Number -> TransferOutcome Token Reason)
      (bR hR : Settlement) (Number_of : Ft4.Decimal -> JS.Number)
      (loading : bool) (st : FormState) :
  TransferForm.form_body submitter bR hR Number_of
    {| balances := Some []; isLoading := loading |} st = Throws TypeError
  /\ TransferForm.form_body submitter bR hR Number_of
       {| balances := None; isLoading := loading |} st = Throws TypeError.
Proof. split; reflexivity. Qed.

(** *** The submit button and the moves of the form *)

Section FormMoves.

Variables Token Reason : Type.
Variable submitter : string -> JS.Number -> TransferOutcome Token Reason.
Variables bR hR : Settlement.
Variable Number_of : Ft4.Decimal -> JS.Number.

Local Abbreviation step := (Lifecycle.step submitter bR hR Number_of).
Local Abbreviation reachable := (Lifecycle.reachable submitter bR hR Number_of).
Local Abbreviation screen := (Lifecycle.screen submitter bR hR Number_of).

(** The submit button of a rendered form is disabled exactly while
    [isSubmitting] is set. *)
Lemma screen_submitDisabled s f :
  screen s = View (TransferForm.FormScreen f) ->
  TransferForm.submitDisabled f = isSubmitting (Lifecycle.form s).
Proof.
  unfold Lifecycle.screen, TransferForm.TransferForm, TransferForm.form_body.
  destruct (TransferForm.guard (Lifecycle.store s)); [discriminate|].
  destruct (balances (Lifecycle.store s)) as [[|b0 rest]|]; simpl;
    try discriminate.
  intros H. injection H as <-. reflexivity.
Qed.

(** A submission starts only from a rendered form, by whatever route. *)
Lemma starts_from_form s s' :
  Lifecycle.starts_submission submitter bR hR Number_of s s' ->
  exists f, screen s = View (TransferForm.FormScreen f).
Proof.
  intros [Hstep Hgrow].
  destruct Hstep as [s store'
                    | s f route values Hscreen Hopen
                    | s pre post values Hrun Hstop
                    | s pre post values to sum rest Hrun Hcall
                    | s pre post values Hrun]; simpl in Hgrow.
  - lia.
  - exists f. exact Hscreen.
  - rewrite Hrun, !length_app in Hgrow. simpl in Hgrow. lia.
  - rewrite Hrun, !length_app in Hgrow. simpl in Hgrow. lia.
  - rewrite Hrun, !length_app in Hgrow. simpl in Hgrow. lia.
Qed.

End FormMoves.

(** C9. For every state of a form instance, whatever its balance store
    holds: the render of the transfer form never throws; while the store
    is loading or its balance list is empty or missing the render is the
    spinner, which offers no submission; whenever the form is rendered
    the store is not loading, its list has a first balance, and the
    current balance, the symbol and the value of the Max button are read
    from that first balance; and a submission can start only while the
    store is not loading and its list is not empty. *)
Theorem balances_read_behind_guard
        (Token Reason : Type)
        (submitter : string -> JS.Number -> TransferOutcome Token Reason)
        (bR hR : Settlement) (Number_of : Ft4.Decimal -> JS.Number)
        (s : Lifecycle.State) :
  let store := Lifecycle.store s in
  let st := Lifecycle.form s in
  let screen := TransferForm.TransferForm submitter bR hR Number_of store st in
  (forall e, screen <> Throws e)
  /\ (isLoading store = true \/ TransferForm.length_of (balances store) = 0%nat ->
      screen = View (TransferForm.Spinner Token Reason)
      /\ forall values, TransferForm.submit_on screen values = None)
  /\ (forall f, screen = View (TransferForm.FormScreen f) ->
      isLoading store = false
      /\ exists b0 rest,
          balances store = Some (b0 :: rest)
          /\ TransferForm.maxValue f = Number_of (Ft4.amount_toString b0)
          /\ TransferForm.amountInfo f
             = match errors_amount (errors st) with
               | Some m => TransferForm.InfoMessage m
               | None =>
                   TransferForm.InfoBalance
                     (Number_of (Ft4.amount_toString b0))
                     (TransferForm.tokenValue f)
               end
          /\ TransferForm.tokenValue f
             = JS.or_else (JS.toUpperCase (Ft4.symbol (Ft4.asset b0))) "TOKEN")
  /\ (forall s',
         Lifecycle.starts_submission submitter bR hR Number_of s s' ->
         isLoading store = false
         /\ TransferForm.length_of (balances store) <> 0%nat).
Proof.
  intros store st screen.
  assert (Hform : forall f, screen = View (TransferForm.FormScreen f) ->
      isLoading store = false
      /\ exists b0 rest,
          balances store = Some (b0 :: rest)
          /\ TransferForm.maxValue f = Number_of (Ft4.amount_toString b0)
          /\ TransferForm.amountInfo f
             = match errors_amount (errors st) with
               | Some m => TransferForm.InfoMessage m
               | None =>
                   TransferForm.InfoBalance
                     (Number_of (Ft4.amount_toString b0))
                     (TransferForm.tokenValue f)
               end
          /\ TransferForm.tokenValue f
             = JS.or_else (JS.toUpperCase (Ft4.symbol (Ft4.asset b0))) "TOKEN").
  { unfold screen, TransferForm.TransferForm.
    destruct (TransferForm.guard store) eqn:Hg; [intros f; discriminate|].
    unfold TransferForm.guard in Hg.
    apply orb_false_iff in Hg as [Hload Hlen].
    unfold TransferForm.form_body.
    destruct (balances store) as [[|b0 rest]|] eqn:Hb; simpl in Hlen;
      try discriminate Hlen.
    simpl. intros f Hf. injection Hf as <-. split; [exact Hload|].
    exists b0, rest. simpl. repeat split; reflexivity. }
  split; [|split; [|split]].
  - unfold screen, TransferForm.TransferForm.
    destruct (TransferForm.guard store) eqn:Hg; [intros e; discriminate|].
    unfold TransferForm.guard in Hg.
    apply orb_false_iff in Hg as [_ Hlen].
    unfold TransferForm.form_body.
    destruct (balances store) as [[|b0 rest]|]; simpl in Hlen;
      try discriminate Hlen.
    simpl. intros e; discriminate.
  - intros Hor.
    assert (Hg : TransferForm.guard store = true).
    { unfold TransferForm.guard. destruct Hor as [-> | ->]; [reflexivity|].
      apply orb_true_r. }
    unfold screen, TransferForm.TransferForm. rewrite Hg.
    split; reflexivity.
  - exact Hform.
  - intros s' Hstart.
    destruct (starts_from_form Hstart) as (f & Hscreen).
    destruct (Hform f Hscreen) as (Hload & b0 & rest & Hb & _).
    split; [exact Hload|]. rewrite Hb. simpl. discriminate.
Qed.

(** The run in which the submit button is pressed with a valid request
    and the handler has called [transferTokens]. *)
Lemma awaiting_state_reachable :
  Lifecycle.reachable accepting_submitter Fulfilled Fulfilled exact_Number_of
    awaiting_state.
Proof.
  apply Lifecycle.reachable_step with (s := submitting_state).
  - apply Lifecycle.reachable_step with (s := Lifecycle.initial store_500).
    + apply Lifecycle.reachable_initial.
    + eapply (@Lifecycle.submit_event string string accepting_submitter
                Fulfilled Fulfilled exact_Number_of
                (Lifecycle.initial store_500) _
                Lifecycle.RequestTransferButton (request "alice" 100));
        reflexivity.
  - eapply (@Lifecycle.validation_passed string string accepting_submitter
              Fulfilled Fulfilled exact_Number_of submitting_state
              [] [] (request "alice" 100)); reflexivity.
Qed.


(** ** The token list *)

(** Converting a balance's own decimal amount back with the asset's
    decimals yields its raw amount: the amount cell shows the raw ledger
    integer, and never throws. *)
Lemma amountCell_raw (b : Ft4.Balance) :
  TokenList.amountCell b = View (JS.bigint_toString (Z.of_N (Ft4.rawAmount b))).
Proof.
  unfold TokenList.amountCell, Ft4.convertToRawAmount, Ft4.amount_toString,
    Ft4.toDecimal. simpl.
  destruct (Z.ltb_spec (Z.of_N (Ft4.rawAmount b)) 0) as [Hneg|_]; [lia|].
  rewrite Nat.ltb_irrefl, Nat.sub_diag.
  unfold Ft4.pow10. simpl. now rewrite Z.mul_1_r.
Qed.

Lemma renderRows_total (bs : list Ft4.Balance) (index : nat) :
  exists rows, TokenList.renderRows index bs = View rows
               /\ List.length rows = List.length bs.
Proof.
  revert index. induction bs as [|b rest IH]; intros index; simpl.
  - exists []. split; reflexivity.
  - unfold TokenList.renderRow. rewrite amountCell_raw.
    destruct (IH (S index)) as (rows & -> & Hlen).
    eexists. split; [reflexivity|]. simpl. now rewrite Hlen.
Qed.

(** The list always renders. *)
Lemma TokenList_renders (p : TokenList.Props) (bs : list Ft4.Balance)
      (loading : bool) :
  exists v, TokenList.TokenList p bs loading = View v
            /\ TokenList.viewAllButton v
               = TokenList.showCompact p && TokenList.hasMore p bs
            /\ TokenList.loadingIndicator v = loading.
Proof.
  unfold TokenList.TokenList.
  destruct (TokenList.displayBalances p bs) as [|b rest] eqn:Hshown.
  - eexists. split; [reflexivity|]. split; reflexivity.
  - destruct (renderRows_total (b :: rest) 0) as (rows & -> & _).
    eexists. split; [reflexivity|]. split; reflexivity.
Qed.

(** C4. For the balance of 500 units of an asset with 6 decimals (raw
    amount 500 000 000), whose display amount rawAmount / 10^decimals is
    500, the token list renders one row whose amount text is
    "500000000": the raw amount, not the display amount. *)
Theorem token_list_shows_raw_amount :
  (Ft4.displayAmount balance_500 == 500)%Q
  /\ exists v row,
      TokenList.TokenList default_mode [balance_500] false = View v
      /\ TokenList.body v = TokenList.Rows [row] false
      /\ TokenList.amountText row = "500000000"%string.
Proof.
  split; [reflexivity|].
  eexists. eexists. split; [vm_compute; reflexivity|].
  split; reflexivity.
Qed.

(** C5 as stated fails: for two balances in compact mode the list is
    flagged as truncated. *)
Lemma two_balances_not_untruncated :
  ~ (TokenList.visible compact_mode [balance_500; balance_usdt]
     = [balance_500; balance_usdt]
     /\ TokenList.truncated compact_mode [balance_500; balance_usdt] = false).
Proof. intros [_ H]. discriminate H. Qed.

(** C5, amended. For the two-element balance list [b1, b2] presented in
    compact mode, the result has visible = [b1, b2] and truncated = true,
    and the "View all" button is rendered. *)
Theorem two_balances_compact (b1 b2 : Ft4.Balance) (loading : bool) :
  TokenList.visible compact_mode [b1; b2] = [b1; b2]
  /\ TokenList.truncated compact_mode [b1; b2] = true
  /\ exists v, TokenList.TokenList compact_mode [b1; b2] loading = View v
               /\ TokenList.viewAllButton v = true.
Proof.
  split; [reflexivity|]. split; [reflexivity|].
  destruct (TokenList_renders compact_mode [b1; b2] loading)
    as (v & Hv & Hbutton & _).
  exists v. split; [exact Hv|]. rewrite Hbutton. reflexivity.
Qed.

(** C6. For every balance list presented in compact mode (the compact
    flag set, the full-list flag clear), the visible entries are the
    first min(3, length) entries of the list in their order, the rest of
    the list following them, and the list is flagged as truncated
    exactly when it has more than one entry. *)
Theorem compact_visible_and_truncated (p : TokenList.Props)
        (bs : list Ft4.Balance) :
  TokenList.showCompact p = true ->
  TokenList.visible p bs = firstn (Nat.min 3 (List.length bs)) bs
  /\ List.length (TokenList.visible p bs) = Nat.min 3 (List.length bs)
  /\ bs = (TokenList.visible p bs ++ skipn 3 bs)%list
  /\ (TokenList.truncated p bs = true <-> (List.length bs > 1)%nat).
Proof.
  intros Hc. unfold TokenList.visible, TokenList.truncated,
    TokenList.displayBalances, TokenList.hasMore. rewrite Hc.
  cbv iota. rewrite andb_true_l.
  split; [|split; [|split]].
  - destruct (Nat.min_spec 3 (List.length bs)) as [[Hlt ->]|[Hle ->]].
    + reflexivity.
    + rewrite (firstn_all2 bs) by lia. now rewrite firstn_all.
  - apply length_firstn.
  - symmetry. apply firstn_skipn.
  - rewrite Nat.ltb_lt. reflexivity.
Qed.

Lemma compact_visible_and_truncated_witness :
  TokenList.visible compact_mode [balance_500; balance_usdt]
  = firstn (Nat.min 3 2) [balance_500; balance_usdt]
  /\ List.length (TokenList.visible compact_mode [balance_500; balance_usdt])
     = Nat.min 3 2
  /\ [balance_500; balance_usdt]
     = (TokenList.visible compact_mode [balance_500; balance_usdt]
        ++ skipn 3 [balance_500; balance_usdt])%list
  /\ (TokenList.truncated compact_mode [balance_500; balance_usdt] = true
      <-> (2 > 1)%nat).
Proof.
  apply (compact_visible_and_truncated compact_mode
           [balance_500; balance_usdt]).
  reflexivity.
Defined.

(** C8. For every balance list, when both the compact and the full-list
    flags are set, the visible entries are the whole list unchanged, the
    list is not flagged as truncated, and the rendered list has no
    "View all" button and no heading. *)
Theorem full_list_overrides_compact (bs : list Ft4.Balance) (loading : bool) :
  TokenList.showCompact compact_and_full = false
  /\ TokenList.visible compact_and_full bs = bs
  /\ TokenList.truncated compact_and_full bs = false
  /\ exists v, TokenList.TokenList compact_and_full bs loading = View v
               /\ TokenList.viewAllButton v = false
               /\ TokenList.heading v = TokenList.NoHeading.
Proof.
  split; [reflexivity|]. split; [reflexivity|]. split; [reflexivity|].
  unfold TokenList.TokenList.
  change (TokenList.displayBalances compact_and_full bs) with bs.
  destruct bs as [|b rest].
  - eexists. split; [reflexivity|]. split; reflexivity.
  - destruct (renderRows_total (b :: rest) 0) as (rows & -> & _).
    eexists. split; [reflexivity|]. split; reflexivity.
Qed.

(* ===================================================================== *)
(** * Further properties of the two components *)
(* ===================================================================== *)

(** ** The schema and its resolver *)

Lemma recipient_schema_accepts s : recipient_schema s = [] <-> nonempty s.
Proof.
  split; [|apply recipient_schema_nonempty].
  destruct s; [discriminate | intros _; discriminate].
Qed.

Lemma transferTokenSchema_accepts v :
  transferTokenSchema v = [] <-> valid_values v.
Proof.
  unfold transferTokenSchema, valid_values, Zod.at_path.
  rewrite <- recipient_schema_accepts, <- amount_schema_accepts.
  split.
  - intros H. apply app_eq_nil in H as [H1 H2].
    apply map_eq_nil in H1, H2. now split.
  - intros [-> ->]. reflexivity.
Qed.

Lemma zodResolver_inl v data :
  zodResolver v = inl data -> data = v /\ valid_values v.
Proof.
  unfold zodResolver.
  destruct (transferTokenSchema v) eqn:Hs; [|discriminate].
  intros H. injection H as <-. split; [reflexivity|].
  now apply transferTokenSchema_accepts.
Qed.

Lemma zodResolver_inr v errs : zodResolver v = inr errs -> ~ valid_values v.
Proof.
  intros H [Hr Ha]. rewrite (zodResolver_valid v Hr Ha) in H. discriminate.
Qed.

(** The four ways the amount schema answers. *)
Lemma amount_schema_cases x :
  amount_schema x = []
  \/ amount_schema x = [amount_required]
  \/ amount_schema x = [amount_too_small]
  \/ amount_schema x = [amount_too_big].
Proof.
  destruct x as [| |q|]; try (vm_compute; tauto).
  unfold amount_schema, Zod.number; simpl.
  unfold Zod.number_min, Zod.number_max, JS.gtb, JS.ofZ; simpl.
  destruct (Qle_bool (inject_Z 1) q) eqn:Hlo;
    destruct (Qle_bool q (inject_Z 100000)) eqn:Hhi; simpl; auto.
  exfalso.
  assert (H1 : ~ (inject_Z 1 <= q)%Q)
    by (intros H; apply Qle_bool_iff in H; congruence).
  assert (H2 : ~ (q <= inject_Z 100000)%Q)
    by (intros H; apply Qle_bool_iff in H; congruence).
  change (inject_Z 1) with 1%Q in H1.
  change (inject_Z 100000) with 100000%Q in H2. lra.
Qed.

(** X1. The resolver accepts form values exactly when the recipient is
    not empty and the amount is a finite number from 1 to 100 000; the
    values it hands on are the values it was given, unchanged. *)
Theorem resolver_accepts_iff (v : TransferTokenValues) :
  ((exists data, zodResolver v = inl data)
   <-> nonempty (recipient v) /\ within_bounds (amount v))
  /\ (forall data, zodResolver v = inl data -> data = v).
Proof.
  split; [split|].
  - intros (data & H). apply (zodResolver_inl v H).
  - intros [Hr Ha]. exists v. now apply zodResolver_valid.
  - intros data H. apply (zodResolver_inl v H).
Qed.

(** X2. The issue raised on the amount follows its range: "Amount is
    required" for NaN, and for a finite amount "Amount should be greater
    than 0" below 1, no issue from 1 to 100 000, and "Max possible to
    transfer 100 000 tokens" above 100 000. *)
Theorem amount_message_by_range :
  amount_schema JS.NaN = [amount_required]
  /\ forall q : Q,
      ((q < 1)%Q -> amount_schema (JS.Finite q) = [amount_too_small])
      /\ ((1 <= q)%Q /\ (q <= 100000)%Q -> amount_schema (JS.Finite q) = [])
      /\ ((100000 < q)%Q -> amount_schema (JS.Finite q) = [amount_too_big]).
Proof.
  split; [reflexivity|]. intros q.
  split; [|split].
  - intros Hq. unfold amount_schema, Zod.number; simpl.
    unfold Zod.number_min, Zod.number_max, JS.gtb, JS.ofZ; simpl.
    assert (H1 : Qle_bool (inject_Z 1) q = false).
    { apply not_true_is_false. intros H. apply Qle_bool_iff in H.
      change (inject_Z 1) with 1%Q in H. lra. }
    assert (H2 : Qle_bool q (inject_Z 100000) = true).
    { apply Qle_bool_iff. change (inject_Z 100000) with 100000%Q. lra. }
    rewrite H1, H2. reflexivity.
  - intros [Hlo Hhi]. apply amount_schema_accepts. exists q. auto.
  - apply over_max_amount_rejected.
Qed.

(** X3. When the resolver refuses form values, the errors are reported
    field by field: the recipient carries "Recipient is required"
    exactly when it is empty and no error otherwise, the amount carries
    an error exactly when it is outside 1..100 000, and at least one of
    the two fields carries an error.  In particular both errors are
    reported together when both fields are wrong. *)
Theorem resolver_errors_by_field (v : TransferTokenValues) (errs : FieldErrors) :
  zodResolver v = inr errs ->
  (errors_recipient errs = Some recipient_required <-> recipient v = EmptyString)
  /\ (errors_recipient errs = None <-> nonempty (recipient v))
  /\ (errors_amount errs = None <-> within_bounds (amount v))
  /\ errors_amount errs = hd_error (amount_schema (amount v))
  /\ errs <> no_errors.
Proof.
  unfold zodResolver, transferTokenSchema.
  pose proof (amount_schema_accepts (amount v)) as Hacc.
  destruct v as [r a]; simpl in *.
  destruct r as [|c r'].
  - destruct (amount_schema_cases a) as [E|[E|[E|E]]]; rewrite E in *; simpl;
      intros H; injection H as <-; simpl;
      (split; [tauto|]); (split; [split; [discriminate | intros Hn; now elim Hn]|]);
      (split; [split; [try discriminate; intros _; now apply Hacc
                      | intros Hw; apply Hacc in Hw; try discriminate Hw; reflexivity]|]);
      (split; [reflexivity | discriminate]).
  - destruct (amount_schema_cases a) as [E|[E|[E|E]]]; rewrite E in *; simpl;
      try discriminate;
      intros H; injection H as <-; simpl;
      (split; [split; discriminate|]);
      (split; [split; [intros _; discriminate | reflexivity]|]);
      (split; [split; [discriminate
                      | intros Hw; apply Hacc in Hw; discriminate Hw]|]);
      (split; [reflexivity | discriminate]).
Qed.

Lemma resolver_errors_by_field_witness :
  let errs := {| errors_recipient := Some recipient_required;
                 errors_amount := Some amount_too_big |} in
  (errors_recipient errs = Some recipient_required <-> EmptyString = EmptyString)
  /\ (errors_recipient errs = None <-> nonempty EmptyString)
  /\ (errors_amount errs = None <-> within_bounds (JS.Finite 200000))
  /\ errors_amount errs = hd_error (amount_schema (JS.Finite 200000))
  /\ errs <> no_errors.
Proof.
  apply (@resolver_errors_by_field (request EmptyString 200000)).
  reflexivity.
Defined.

(** ** The submit handler *)

Section SubmitHandler.

Variables Token Reason : Type.
Variable submitter : string -> JS.Number -> TransferOutcome Token Reason.

(** The handlers run on settlement never call the submitter again. *)
Lemma settle_never_resubmits (bR hR : Settlement)
      (outcome : TransferOutcome Token Reason) :
  ~ invokes_submitter
      (Eff.trace (TransferForm.settle (TransferForm.onSuccess Reason bR hR)
                    (@TransferForm.onError Token Reason) outcome)).
Proof.
  destruct outcome as [token|reason]; simpl.
  - rewrite onSuccess_trace. intros (r & a & Hin).
    destruct (Promise_all [bR; hR]); simpl in Hin;
      repeat (destruct Hin as [Hin|Hin]; [discriminate Hin|]); exact Hin.
  - intros (r & a & [Hin|[]]). discriminate Hin.
Qed.

Lemma transferTokens_trace (bR hR : Settlement) (r : string) (a : JS.Number) :
  Eff.trace (TransferForm.transferTokens submitter bR hR r a)
  = Eff.SubmitterInvoked r a
    :: Eff.trace (TransferForm.settle (TransferForm.onSuccess Reason bR hR)
                    (@TransferForm.onError Token Reason) (submitter r a)).
Proof.
  unfold TransferForm.transferTokens, TransferForm.useTransferTokens.
  rewrite trace_bind. reflexivity.
Qed.

End SubmitHandler.

(** X4. For all form values, the submit handler invokes the transfer
    submitter exactly when the values are valid (recipient not empty,
    amount from 1 to 100 000).  On valid values it reports no error and
    invokes the submitter once, first, with the recipient and the amount
    as entered; on any other values it emits no event at all and reports
    an error on at least one field. *)
Theorem submitter_invoked_iff_valid
        (Token Reason : Type)
        (submitter : string -> JS.Number -> TransferOutcome Token Reason)
        (bR hR : Settlement) (values : TransferTokenValues) :
  let r := TransferForm.onSubmit submitter bR hR values in
  (invokes_submitter (Eff.trace (snd r)) <-> valid_values values)
  /\ (valid_values values ->
      fst r = no_errors
      /\ exists rest,
          Eff.trace (snd r)
          = Eff.SubmitterInvoked (recipient values) (amount values) :: rest
          /\ ~ invokes_submitter rest)
  /\ (~ valid_values values ->
      Eff.trace (snd r) = [] /\ fst r <> no_errors).
Proof.
  intros r.
  assert (Hvalid : valid_values values ->
      fst r = no_errors
      /\ exists rest,
          Eff.trace (snd r)
          = Eff.SubmitterInvoked (recipient values) (amount values) :: rest
          /\ ~ invokes_submitter rest).
  { intros [Hr Ha]. unfold r.
    rewrite (onSubmit_valid submitter bR hR values Hr Ha). simpl fst. simpl snd.
    split; [reflexivity|]. eexists. split; [apply transferTokens_trace|].
    apply settle_never_resubmits. }
  assert (Hinvalid : ~ valid_values values ->
      Eff.trace (snd r) = [] /\ fst r <> no_errors).
  { intros Hn. unfold r.
    destruct (zodResolver values) as [data|errs] eqn:Hres.
    - elim Hn. apply (zodResolver_inl values Hres).
    - rewrite (onSubmit_invalid submitter bR hR values Hres). simpl.
      split; [reflexivity|].
      unfold zodResolver, transferTokenSchema in Hres.
      destruct values as [to a]; simpl in Hres.
      destruct to as [|c to'];
        destruct (amount_schema_cases a) as [E|[E|[E|E]]];
        rewrite E in Hres; simpl in Hres;
        try discriminate Hres; injection Hres as <-; discriminate. }
  split; [|split; assumption].
  split.
  - intros Hinv. destruct (zodResolver values) as [data|errs] eqn:Hres.
    + apply (zodResolver_inl values Hres).
    + exfalso. destruct (Hinvalid (@zodResolver_inr values errs Hres)) as [Hnil _].
      rewrite Hnil in Hinv. destruct Hinv as (x & a & []).
  - intros Hv. destruct (Hvalid Hv) as (_ & rest & -> & _).
    exists (recipient values), (amount values). now left.
Qed.

(** X5. When the submitter refuses a valid request, the only thing the
    workflow does after invoking it is to show the failure modal with the
    submitter's reason: no refresh is initiated, the success modal is not
    shown, the caller's [onBack] is not called, and the handler returns
    normally. *)
Theorem failed_submission_only_shows_error
        (Token Reason : Type)
        (submitter : string -> JS.Number -> TransferOutcome Token Reason)
        (bR hR : Settlement)
        (values : TransferTokenValues) (reason : Reason) :
  valid_values values ->
  submitter (recipient values) (amount values) = Failure reason ->
  let r := TransferForm.onSubmit submitter bR hR values in
  Eff.trace (snd r)
  = [Eff.SubmitterInvoked (recipient values) (amount values);
     Eff.FailedModalShown reason]
  /\ Eff.completed (snd r) = true
  /\ ~ In Eff.BalanceRefreshInitiated (Eff.trace (snd r))
  /\ ~ In Eff.HistoryRefreshInitiated (Eff.trace (snd r))
  /\ ~ In Eff.OnBack (Eff.trace (snd r)).
Proof.
  intros [Hr Ha] Hfail r. unfold r.
  rewrite (onSubmit_valid submitter bR hR values Hr Ha). simpl snd.
  unfold TransferForm.transferTokens, TransferForm.useTransferTokens.
  unfold Eff.bind, Eff.emit. rewrite Hfail. simpl.
  split; [reflexivity|]. split; [reflexivity|].
  repeat split; intros [H|[H|[]]]; discriminate H.
Qed.

Lemma failed_submission_only_shows_error_witness :
  let r := TransferForm.onSubmit rejecting_submitter Fulfilled Fulfilled
             (request "alice" 100) in
  Eff.trace (snd r)
  = [Eff.SubmitterInvoked "alice" (JS.Finite 100);
     Eff.FailedModalShown "RejectedByNetwork"%string]
  /\ Eff.completed (snd r) = true
  /\ ~ In Eff.BalanceRefreshInitiated (Eff.trace (snd r))
  /\ ~ In Eff.HistoryRefreshInitiated (Eff.trace (snd r))
  /\ ~ In Eff.OnBack (Eff.trace (snd r)).
Proof.
  apply (@failed_submission_only_shows_error string string rejecting_submitter
           Fulfilled Fulfilled (request "alice" 100)
           "RejectedByNetwork"%string).
  - split; [discriminate|]. exists 100%Q. split; [reflexivity|].
    split; vm_compute; discriminate.
  - reflexivity.
Defined.

(** X6. In the success handler the modal is shown and both refreshes are
    initiated whatever happens next (the history refresh also when the
    balance refresh is going to reject); the caller's [onBack] is called
    exactly when both refreshes are fulfilled, and exactly then the
    handler returns normally: a rejected refresh makes it throw after the
    modal, without going back. *)
Theorem onBack_iff_refreshes_fulfilled
        (Token Reason : Type) (bR hR : Settlement) (token : Token) :
  let h := TransferForm.onSuccess Reason bR hR token in
  In (Eff.SuccessModalShown token) (Eff.trace h)
  /\ In Eff.BalanceRefreshInitiated (Eff.trace h)
  /\ In Eff.HistoryRefreshInitiated (Eff.trace h)
  /\ (In Eff.OnBack (Eff.trace h) <-> bR = Fulfilled /\ hR = Fulfilled)
  /\ (Eff.completed h = true <-> bR = Fulfilled /\ hR = Fulfilled).
Proof.
  intros h. unfold h. rewrite onSuccess_trace.
  split; [now left|]. split; [right; now left|].
  split; [right; right; now left|].
  destruct bR, hR; simpl; (split; split);
    try (intros _; split; reflexivity);
    try (intros _; reflexivity);
    try (intros _; do 3 right; now left);
    try (intros [H1 H2]; discriminate);
    try discriminate;
    try (intros [H|[H|[H|[]]]]; discriminate H).
Qed.

(** ** The rendered form *)

Lemma toUpperCase_length s : String.length (JS.toUpperCase s) = String.length s.
Proof. induction s as [|c s IH]; simpl; [reflexivity | now rewrite IH]. Qed.

Lemma toUpperCase_nonempty s : nonempty s -> nonempty (JS.toUpperCase s).
Proof. destruct s; [intros H; now elim H | intros _; discriminate]. Qed.

(** What a rendered form holds, read back from its screen. *)
Lemma rendered_form_fields
      (Token Reason : Type)
      (submitter : string -> JS.Number -> TransferOutcome Token Reason)
      (bR hR : Settlement) (Number_of : Ft4.Decimal -> JS.Number)
      (store : BalanceStore) (st : FormState)
      (f : TransferForm.Form Token Reason) :
  TransferForm.TransferForm submitter bR hR Number_of store st
  = View (TransferForm.FormScreen f) ->
  exists b0 rest,
    balances store = Some (b0 :: rest)
    /\ TransferForm.maxValue f = Number_of (Ft4.amount_toString b0)
    /\ TransferForm.tokenValue f
       = JS.or_else (JS.toUpperCase (Ft4.symbol (Ft4.asset b0))) "TOKEN"
    /\ TransferForm.submit f = TransferForm.onSubmit submitter bR hR.
Proof.
  intros Hscreen.
  destruct (TransferForm.guard store) eqn:Hg.
  - unfold TransferForm.TransferForm in Hscreen. rewrite Hg in Hscreen.
    discriminate.
  - destruct (TransferForm_renders submitter Number_of bR hR store st Hg)
      as (b0 & rest & f' & Hb & Hscreen' & Hmax & Htok & _ & Hsub).
    rewrite Hscreen in Hscreen'. injection Hscreen' as <-.
    exists b0, rest. repeat split; assumption.
Qed.

Lemma zodResolver_errors_amount v errs :
  zodResolver v = inr errs ->
  errors_amount errs = hd_error (amount_schema (amount v)).
Proof.
  unfold zodResolver, transferTokenSchema. destruct v as [to a]; simpl.
  destruct to as [|c to'];
    destruct (amount_schema_cases a) as [E|[E|[E|E]]]; rewrite E; simpl;
    try discriminate; intros H; injection H as <-; reflexivity.
Qed.

(** X7. Pressing Max on a rendered form sets the amount to the number of
    the first balance and keeps the recipient.  Submitting right after:
    if the recipient is not empty and that number lies from 1 to 100 000
    the submitter is invoked with the recipient and exactly that number;
    if the number is below 1 or above 100 000 the submission is refused
    on the amount field, with the message of the bound it breaks, and
    nothing is invoked. *)
Theorem max_then_submit
        (Token Reason : Type)
        (submitter : string -> JS.Number -> TransferOutcome Token Reason)
        (bR hR : Settlement) (Number_of : Ft4.Decimal -> JS.Number)
        (store : BalanceStore) (st : FormState)
        (f : TransferForm.Form Token Reason)
        (values : TransferTokenValues) :
  TransferForm.TransferForm submitter bR hR Number_of store st
  = View (TransferForm.FormScreen f) ->
  let values' := onMaxClick f values in
  let r := TransferForm.submit f values' in
  recipient values' = recipient values
  /\ (exists b0 rest,
         balances store = Some (b0 :: rest)
         /\ amount values' = Number_of (Ft4.amount_toString b0))
  /\ (nonempty (recipient values) -> within_bounds (amount values') ->
      fst r = no_errors
      /\ exists rest,
          Eff.trace (snd r)
          = Eff.SubmitterInvoked (recipient values) (amount values') :: rest)
  /\ (forall q, amount values' = JS.Finite q ->
        ((q < 1)%Q ->
         errors_amount (fst r) = Some amount_too_small
         /\ Eff.trace (snd r) = [])
        /\ ((100000 < q)%Q ->
            errors_amount (fst r) = Some amount_too_big
            /\ Eff.trace (snd r) = [])).
Proof.
  intros Hscreen values' r.
  destruct (rendered_form_fields _ _ _ _ _ _ Hscreen)
    as (b0 & rest & Hb & Hmax & _ & Hsub).
  split; [reflexivity|]. split; [exists b0, rest; split; assumption|].
  unfold r. rewrite Hsub. split.
  - intros Hr Ha.
    rewrite (onSubmit_valid submitter bR hR values' Hr Ha). simpl.
    split; [reflexivity|]. eexists. apply transferTokens_trace.
  - intros q Hq.
    assert (Hrej : forall m, amount_schema (JS.Finite q) = [m] ->
              errors_amount (fst (TransferForm.onSubmit submitter bR hR values'))
              = Some m
              /\ Eff.trace (snd (TransferForm.onSubmit submitter bR hR values'))
                 = []).
    { intros m Hm.
      destruct (zodResolver values') as [data|errs] eqn:Hres.
      - destruct (zodResolver_inl values' Hres) as [_ [_ Hw]].
        apply amount_schema_accepts in Hw. rewrite Hq, Hm in Hw. discriminate.
      - rewrite (onSubmit_invalid submitter bR hR values' Hres). simpl.
        rewrite (zodResolver_errors_amount values' Hres), Hq, Hm.
        split; reflexivity. }
    split.
    + intros Hlt. apply Hrej.
      unfold amount_schema, Zod.number; simpl.
      unfold Zod.number_min, Zod.number_max, JS.gtb, JS.ofZ; simpl.
      assert (H1 : Qle_bool (inject_Z 1) q = false).
      { apply not_true_is_false. intros H. apply Qle_bool_iff in H.
        change (inject_Z 1) with 1%Q in H. lra. }
      assert (H2 : Qle_bool q (inject_Z 100000) = true).
      { apply Qle_bool_iff. change (inject_Z 100000) with 100000%Q. lra. }
      rewrite H1, H2. reflexivity.
    + intros Hgt. apply Hrej. now apply over_max_amount_rejected.
Qed.

Lemma max_then_submit_witness :
  exists f,
    TransferForm.TransferForm accepting_submitter Fulfilled Fulfilled
      exact_Number_of store_500 idle = View (TransferForm.FormScreen f)
    /\ let values' := onMaxClick f (request "alice" 1) in
       let r := TransferForm.submit f values' in
       recipient values' = "alice"%string
       /\ (exists b0 rest,
              balances store_500 = Some (b0 :: rest)
              /\ amount values' = exact_Number_of (Ft4.amount_toString b0))
       /\ (nonempty "alice" -> within_bounds (amount values') ->
           fst r = no_errors
           /\ exists rest,
               Eff.trace (snd r)
               = Eff.SubmitterInvoked "alice" (amount values') :: rest)
       /\ (forall q, amount values' = JS.Finite q ->
             ((q < 1)%Q ->
              errors_amount (fst r) = Some amount_too_small
              /\ Eff.trace (snd r) = [])
             /\ ((100000 < q)%Q ->
                 errors_amount (fst r) = Some amount_too_big
                 /\ Eff.trace (snd r) = [])).
Proof.
  eexists. split; [reflexivity|].
  apply (@max_then_submit string string accepting_submitter Fulfilled
           Fulfilled exact_Number_of store_500 idle _ (request "alice" 1)).
  reflexivity.
Defined.

(** X8. The token field of a rendered form is never empty: it shows the
    text "TOKEN" when the symbol of the first balance is empty, and for
    a symbol of ASCII characters its upper case, of the same length as
    the symbol. *)
Theorem token_label_never_empty
        (Token Reason : Type)
        (submitter : string -> JS.Number -> TransferOutcome Token Reason)
        (bR hR : Settlement) (Number_of : Ft4.Decimal -> JS.Number)
        (store : BalanceStore) (st : FormState)
        (f : TransferForm.Form Token Reason) :
  TransferForm.TransferForm submitter bR hR Number_of store st
  = View (TransferForm.FormScreen f) ->
  nonempty (TransferForm.tokenValue f)
  /\ exists b0 rest,
      balances store = Some (b0 :: rest)
      /\ (Ft4.symbol (Ft4.asset b0) = EmptyString ->
          TransferForm.tokenValue f = "TOKEN"%string)
      /\ (nonempty (Ft4.symbol (Ft4.asset b0)) ->
          ascii_only (Ft4.symbol (Ft4.asset b0)) ->
          TransferForm.tokenValue f = JS.toUpperCase (Ft4.symbol (Ft4.asset b0))
          /\ String.length (TransferForm.tokenValue f)
             = String.length (Ft4.symbol (Ft4.asset b0))).
Proof.
  intros Hscreen.
  destruct (rendered_form_fields _ _ _ _ _ _ Hscreen)
    as (b0 & rest & Hb & _ & Htok & _).
  rewrite Htok. split.
  - destruct (Ft4.symbol (Ft4.asset b0)); simpl; discriminate.
  - exists b0, rest. split; [exact Hb|]. split.
    + intros ->. reflexivity.
    + intros Hne _.
      assert (E : JS.or_else (JS.toUpperCase (Ft4.symbol (Ft4.asset b0)))
                             "TOKEN"
                  = JS.toUpperCase (Ft4.symbol (Ft4.asset b0))).
      { pose proof (toUpperCase_nonempty Hne) as Hu.
        destruct (JS.toUpperCase (Ft4.symbol (Ft4.asset b0)));
          [now elim Hu | reflexivity]. }
      rewrite E. split; [reflexivity | apply toUpperCase_length].
Qed.

Lemma token_label_never_empty_witness :
  exists f,
    TransferForm.TransferForm accepting_submitter Fulfilled Fulfilled
      exact_Number_of store_500 idle = View (TransferForm.FormScreen f)
    /\ TransferForm.tokenValue f = "CHR"%string
    /\ nonempty (Ft4.symbol chr)
    /\ ascii_only (Ft4.symbol chr)
    /\ nonempty (TransferForm.tokenValue f)
    /\ exists b0 rest,
        balances store_500 = Some (b0 :: rest)
        /\ (Ft4.symbol (Ft4.asset b0) = EmptyString ->
            TransferForm.tokenValue f = "TOKEN"%string)
        /\ (nonempty (Ft4.symbol (Ft4.asset b0)) ->
            ascii_only (Ft4.symbol (Ft4.asset b0)) ->
            TransferForm.tokenValue f
            = JS.toUpperCase (Ft4.symbol (Ft4.asset b0))
            /\ String.length (TransferForm.tokenValue f)
               = String.length (Ft4.symbol (Ft4.asset b0))).
Proof.
  eexists. split; [reflexivity|]. split; [reflexivity|].
  split; [discriminate|].
  split.
  { intros c Hin. simpl in Hin.
    destruct Hin as [<-|[<-|[<-|[]]]]; vm_compute; lia. }
  apply (@token_label_never_empty string string accepting_submitter Fulfilled
           Fulfilled exact_Number_of store_500 idle).
  reflexivity.
Defined.

(** X9. Only the first balance of the snapshot reaches the transfer
    form: two stores that agree on the loading flag and on their first
    balance render the same screen, whatever follows in their lists. *)
Theorem form_reads_first_balance_only
        (Token Reason : Type)
        (submitter : string -> JS.Number -> TransferOutcome Token Reason)
        (bR hR : Settlement) (Number_of : Ft4.Decimal -> JS.Number)
        (loading : bool) (st : FormState)
        (b0 : Ft4.Balance) (rest1 rest2 : list Ft4.Balance) :
  TransferForm.TransferForm submitter bR hR Number_of
    {| balances := Some (b0 :: rest1); isLoading := loading |} st
  = TransferForm.TransferForm submitter bR hR Number_of
      {| balances := Some (b0 :: rest2); isLoading := loading |} st.
Proof.
  unfold TransferForm.TransferForm, TransferForm.guard, TransferForm.form_body.
  simpl. destruct loading; reflexivity.
Qed.

(** ** The life cycle *)

Section LifecycleInvariants.

Variables Token Reason : Type.
Variable submitter : string -> JS.Number -> TransferOutcome Token Reason.
Variables bR hR : Settlement.
Variable Number_of : Ft4.Decimal -> JS.Number.

Local Abbreviation step := (Lifecycle.step submitter bR hR Number_of).
Local Abbreviation reachable := (Lifecycle.reachable submitter bR hR Number_of).

(** When nothing is running, [isSubmitting] is clear. *)
Lemma reachable_idle_clear s :
  reachable s -> Lifecycle.running s = [] ->
  isSubmitting (Lifecycle.form s) = false.
Proof.
  induction 1 as [st | s s' Hreach IH Hstep]; [reflexivity|].
  destruct Hstep as [s store'
                    | s f route values Hscreen Hopen
                    | s pre post values Hrun Hstop
                    | s pre post values to sum rest Hrun Hcall
                    | s pre post values Hrun]; simpl; intros Hnil.
  - now apply IH.
  - discriminate Hnil.
  - reflexivity.
  - destruct pre; discriminate Hnil.
  - reflexivity.
Qed.

(** The handler calls [transferTokens] only on values that pass the
    schema. *)
Lemma handler_calls_on_valid values to sum rest :
  Eff.trace (snd (Lifecycle.handler submitter bR hR values))
  = Eff.SubmitterInvoked to sum :: rest ->
  valid_values values.
Proof.
  unfold Lifecycle.handler. intros Htrace.
  destruct (zodResolver values) as [data|errs] eqn:Hres.
  - apply (zodResolver_inl values Hres).
  - rewrite (onSubmit_invalid submitter bR hR values Hres) in Htrace.
    discriminate Htrace.
Qed.

End LifecycleInvariants.

(** X10. In every state a form instance can reach, whenever no call of
    the submit handler is running [isSubmitting] is clear, and the
    rendered form shows its submit button enabled with the label
    "Request transfer": the button is never left disabled once the
    running calls have returned. *)
Theorem submit_enabled_when_idle
        (Token Reason : Type)
        (submitter : string -> JS.Number -> TransferOutcome Token Reason)
        (bR hR : Settlement) (Number_of : Ft4.Decimal -> JS.Number)
        (s : Lifecycle.State) :
  Lifecycle.reachable submitter bR hR Number_of s ->
  Lifecycle.running s = [] ->
  isSubmitting (Lifecycle.form s) = false
  /\ (forall f,
         Lifecycle.screen submitter bR hR Number_of s
         = View (TransferForm.FormScreen f) ->
         TransferForm.submitDisabled f = false
         /\ TransferForm.submitLabel f = TransferForm.RequestTransfer).
Proof.
  intros Hreach Hidle.
  pose proof (reachable_idle_clear Hreach Hidle) as Hclear.
  split; [exact Hclear|].
  intros f Hscreen.
  split; [now rewrite (screen_submitDisabled _ _ _ _ _ Hscreen)|].
  unfold Lifecycle.screen, TransferForm.TransferForm, TransferForm.form_body
    in Hscreen.
  destruct (TransferForm.guard (Lifecycle.store s)); [discriminate|].
  destruct (balances (Lifecycle.store s)) as [[|b0 rest]|]; simpl in Hscreen;
    try discriminate.
  injection Hscreen as <-. simpl. now rewrite Hclear.
Qed.

Lemma submit_enabled_when_idle_witness :
  isSubmitting (Lifecycle.form (Lifecycle.initial store_500)) = false
  /\ (forall f,
         Lifecycle.screen accepting_submitter Fulfilled Fulfilled
           exact_Number_of (Lifecycle.initial store_500)
         = View (TransferForm.FormScreen f) ->
         TransferForm.submitDisabled f = false
         /\ TransferForm.submitLabel f = TransferForm.RequestTransfer).
Proof.
  apply (@submit_enabled_when_idle string string accepting_submitter
           Fulfilled Fulfilled exact_Number_of (Lifecycle.initial store_500)).
  - apply Lifecycle.reachable_step with (s := awaiting_state).
    + exact awaiting_state_reachable.
    + apply (@Lifecycle.attempt_settled string string accepting_submitter
               Fulfilled Fulfilled exact_Number_of awaiting_state
               [] [] (request "alice" 100)). reflexivity.
  - reflexivity.
Defined.

(** X11. In every state a form instance can reach, by whatever route its
    submit events arrived, each request handed to [transferTokens] and
    still awaited has passed the schema: its recipient is not empty and
    its amount lies from 1 to 100 000.  The handler never puts a request
    the resolver refused in flight. *)
Theorem in_flight_requests_are_valid
        (Token Reason : Type)
        (submitter : string -> JS.Number -> TransferOutcome Token Reason)
        (bR hR : Settlement) (Number_of : Ft4.Decimal -> JS.Number)
        (s : Lifecycle.State) (v : TransferTokenValues) :
  Lifecycle.reachable submitter bR hR Number_of s ->
  In (Lifecycle.Awaiting v) (Lifecycle.running s) ->
  nonempty (recipient v) /\ within_bounds (amount v).
Proof.
  intros Hreach. revert v.
  induction Hreach as [st | s s' Hreach IH Hstep]; [intros v []|].
  destruct Hstep as [s store'
                    | s f route values Hscreen Hopen
                    | s pre post values Hrun Hstop
                    | s pre post values to sum rest Hrun Hcall
                    | s pre post values Hrun]; simpl; intros v Hin.
  - now apply IH.
  - destruct Hin as [Hin|Hin]; [discriminate Hin | now apply IH].
  - apply IH. rewrite Hrun. apply in_app_or in Hin.
    apply in_or_app. destruct Hin; [now left | right; now right].
  - apply in_app_or in Hin. destruct Hin as [Hin|[Hin|Hin]].
    + apply IH. rewrite Hrun. apply in_or_app. now left.
    + injection Hin as <-. exact (handler_calls_on_valid _ _ _ _ Hcall).
    + apply IH. rewrite Hrun. apply in_or_app. right. now right.
  - apply IH. rewrite Hrun. apply in_app_or in Hin.
    apply in_or_app. destruct Hin; [now left | right; now right].
Qed.

Lemma in_flight_requests_are_valid_witness :
  nonempty (recipient (request "alice" 100))
  /\ within_bounds (amount (request "alice" 100)).
Proof.
  apply (@in_flight_requests_are_valid string string accepting_submitter
           Fulfilled Fulfilled exact_Number_of awaiting_state
           (request "alice" 100)).
  - exact awaiting_state_reachable.
  - left. reflexivity.
Defined.

(** ** The rendered token list *)

Lemma displayBalances_nil_iff (p : TokenList.Props) (bs : list Ft4.Balance) :
  TokenList.displayBalances p bs = [] <-> bs = [].
Proof.
  unfold TokenList.displayBalances.
  destruct (TokenList.showCompact p); [|reflexivity].
  destruct bs; simpl; split; (reflexivity || discriminate).
Qed.

Lemma displayBalances_length (p : TokenList.Props) (bs : list Ft4.Balance) :
  List.length (TokenList.displayBalances p bs)
  = if TokenList.showCompact p then Nat.min 3 (List.length bs)
    else List.length bs.
Proof.
  unfold TokenList.displayBalances.
  destruct (TokenList.showCompact p); [apply length_firstn | reflexivity].
Qed.

(** The whole view of the list, with its rows. *)
Lemma TokenList_view (p : TokenList.Props) (bs : list Ft4.Balance)
      (loading : bool) :
  exists v, TokenList.TokenList p bs loading = View v
    /\ TokenList.heading v
       = (if negb (TokenList.fullList p)
          then TokenList.YourAssets (match List.length bs with
                                     | O => None
                                     | n => Some n
                                     end)
          else TokenList.NoHeading)
    /\ TokenList.viewAllButton v
       = TokenList.showCompact p && TokenList.hasMore p bs
    /\ TokenList.loadingIndicator v = loading
    /\ ((bs = [] /\ TokenList.body v = TokenList.NothingFound)
        \/ (bs <> []
            /\ exists rows,
                TokenList.renderRows 0 (TokenList.displayBalances p bs)
                = View rows
                /\ List.length rows
                   = List.length (TokenList.displayBalances p bs)
                /\ TokenList.body v
                   = TokenList.Rows rows (TokenList.fullList p))).
Proof.
  unfold TokenList.TokenList.
  destruct (TokenList.displayBalances p bs) as [|b rest] eqn:Hshown.
  - eexists. split; [reflexivity|]. simpl. repeat split.
    left. split; [now apply (displayBalances_nil_iff p)|reflexivity].
  - destruct (renderRows_total (b :: rest) 0) as (rows & Hrows & Hlen).
    rewrite Hrows. eexists. split; [reflexivity|]. simpl. repeat split.
    right. split.
    + intros ->.
      rewrite (proj2 (displayBalances_nil_iff p []) eq_refl) in Hshown.
      discriminate Hshown.
    + exists rows. repeat split; assumption.
Qed.

(** X12. Whatever the mode, the list shows "Nothing found" exactly when
    the store has no balance; otherwise it shows rows, min(3, length) of
    them in compact mode and one per balance in the other modes, with
    the bottom padding exactly in the full list. *)
Theorem nothing_found_iff_no_balances (p : TokenList.Props)
        (bs : list Ft4.Balance) (loading : bool) :
  exists v,
    TokenList.TokenList p bs loading = View v
    /\ (TokenList.body v = TokenList.NothingFound <-> bs = [])
    /\ (forall rows padding,
           TokenList.body v = TokenList.Rows rows padding ->
           padding = TokenList.fullList p
           /\ List.length rows
              = if TokenList.showCompact p
                then Nat.min 3 (List.length bs)
                else List.length bs).
Proof.
  destruct (TokenList_view p bs loading)
    as (v & Hv & _ & _ & _ & [[Hnil Hbody] | (Hne & rows & _ & Hlen & Hbody)]).
  - exists v. split; [exact Hv|]. rewrite Hbody. split.
    + split; [intros _; exact Hnil | reflexivity].
    + intros rows padding H. discriminate H.
  - exists v. split; [exact Hv|]. rewrite Hbody. split.
    + split; [discriminate | intros Hnil; now elim Hne].
    + intros rows' padding H. injection H as <- <-.
      split; [reflexivity|]. rewrite Hlen. apply displayBalances_length.
Qed.

(** X13. In compact mode with more than three balances the heading still
    counts every balance of the store while only three rows are shown,
    and the "View all" button is rendered. *)
Theorem heading_counts_hidden_balances (p : TokenList.Props)
        (bs : list Ft4.Balance) (loading : bool) :
  TokenList.showCompact p = true ->
  (List.length bs > 3)%nat ->
  exists v rows,
    TokenList.TokenList p bs loading = View v
    /\ TokenList.heading v = TokenList.YourAssets (Some (List.length bs))
    /\ TokenList.body v = TokenList.Rows rows false
    /\ List.length rows = 3%nat
    /\ TokenList.viewAllButton v = true.
Proof.
  intros Hc Hlen.
  assert (Hfull : TokenList.fullList p = false).
  { unfold TokenList.showCompact in Hc. apply andb_true_iff in Hc as [_ Hf].
    now apply negb_true_iff in Hf. }
  destruct (TokenList_view p bs loading)
    as (v & Hv & Hhead & Hbtn & _ & [[Hnil _] | (_ & rows & _ & Hrows & Hbody)]).
  - rewrite Hnil in Hlen. simpl in Hlen. lia.
  - exists v, rows. split; [exact Hv|]. split.
    + rewrite Hhead, Hfull. simpl.
      destruct (List.length bs); [lia | reflexivity].
    + split; [now rewrite Hbody, Hfull|]. split.
      * rewrite Hrows, displayBalances_length, Hc. lia.
      * rewrite Hbtn. unfold TokenList.hasMore. rewrite Hc. simpl.
        apply Nat.ltb_lt. lia.
Qed.

Lemma heading_counts_hidden_balances_witness :
  exists v rows,
    TokenList.TokenList compact_mode four_balances false = View v
    /\ TokenList.heading v
       = TokenList.YourAssets (Some (List.length four_balances))
    /\ TokenList.body v = TokenList.Rows rows false
    /\ List.length rows = 3%nat
    /\ TokenList.viewAllButton v = true.
Proof.
  apply (@heading_counts_hidden_balances compact_mode four_balances false).
  - reflexivity.
  - simpl. lia.
Defined.

(** Each row comes from the balance at its position, and carries that
    position, counted from the first index, as its key. *)
Lemma renderRows_nth (bs : list Ft4.Balance) (first : nat) (rows : list TokenList.Row) :
  TokenList.renderRows first bs = View rows ->
  forall i b, nth_error bs i = Some b ->
  exists row,
    nth_error rows i = Some row
    /\ TokenList.key row = (first + i)%nat
    /\ TokenList.symbolText row = Ft4.symbol (Ft4.asset b)
    /\ TokenList.iconAlt row = Ft4.symbol (Ft4.asset b)
    /\ TokenList.iconSrc row = Ft4.iconUrl (Ft4.asset b)
    /\ TokenList.amountCell b = View (TokenList.amountText row).
Proof.
  revert first rows. induction bs as [|b0 rest IH]; intros first rows Hrows i b Hnth.
  - destruct i; discriminate Hnth.
  - simpl in Hrows. unfold TokenList.renderRow in Hrows.
    destruct (TokenList.amountCell b0) as [text|e] eqn:Hcell; [|discriminate].
    destruct (TokenList.renderRows (S first) rest) as [rs|e] eqn:Hrest;
      [|discriminate].
    injection Hrows as <-.
    destruct i as [|i]; simpl in Hnth.
    + injection Hnth as <-. eexists. split; [reflexivity|]. simpl.
      rewrite Nat.add_0_r. repeat split. exact Hcell.
    + destruct (IH (S first) rs Hrest i b Hnth) as (row & Hrow & Hkey & Hrest').
      exists row. split; [exact Hrow|]. split; [rewrite Hkey; lia | exact Hrest'].
Qed.

(** X14. The rows follow the visible balances position by position: the
    row at position i has key i and shows the symbol (also as the
    alternative text of the icon), the icon address and the amount cell
    of the i-th visible balance; there are as many rows as visible
    balances. *)
Theorem rows_follow_visible_balances (p : TokenList.Props)
        (bs : list Ft4.Balance) (loading : bool) :
  bs <> [] ->
  exists v rows,
    TokenList.TokenList p bs loading = View v
    /\ TokenList.body v = TokenList.Rows rows (TokenList.fullList p)
    /\ List.length rows = List.length (TokenList.displayBalances p bs)
    /\ forall i b,
        nth_error (TokenList.displayBalances p bs) i = Some b ->
        exists row,
          nth_error rows i = Some row
          /\ TokenList.key row = i
          /\ TokenList.symbolText row = Ft4.symbol (Ft4.asset b)
          /\ TokenList.iconAlt row = Ft4.symbol (Ft4.asset b)
          /\ TokenList.iconSrc row = Ft4.iconUrl (Ft4.asset b)
          /\ TokenList.amountCell b = View (TokenList.amountText row).
Proof.
  intros Hne.
  destruct (TokenList_view p bs loading)
    as (v & Hv & _ & _ & _ & [[Hnil _] | (_ & rows & Hrows & Hlen & Hbody)]).
  - now elim Hne.
  - exists v, rows. split; [exact Hv|]. split; [exact Hbody|].
    split; [exact Hlen|]. intros i b Hnth.
    destruct (renderRows_nth _ _ Hrows i Hnth) as (row & Hrow & Hkey & Hrest).
    exists row. split; [exact Hrow|]. split; [exact Hkey | exact Hrest].
Qed.

Lemma rows_follow_visible_balances_witness :
  exists v rows,
    TokenList.TokenList compact_mode four_balances false = View v
    /\ TokenList.body v
       = TokenList.Rows rows (TokenList.fullList compact_mode)
    /\ List.length rows
       = List.length (TokenList.displayBalances compact_mode four_balances)
    /\ forall i b,
        nth_error (TokenList.displayBalances compact_mode four_balances) i
        = Some b ->
        exists row,
          nth_error rows i = Some row
          /\ TokenList.key row = i
          /\ TokenList.symbolText row = Ft4.symbol (Ft4.asset b)
          /\ TokenList.iconAlt row = Ft4.symbol (Ft4.asset b)
          /\ TokenList.iconSrc row = Ft4.iconUrl (Ft4.asset b)
          /\ TokenList.amountCell b = View (TokenList.amountText row).
Proof.
  apply (@rows_follow_visible_balances compact_mode four_balances false).
  discriminate.
Defined.

(** X15. For all flags and all balance lists, the "View all" button is
    rendered exactly when the compact flag is set, the full-list flag is
    clear and the store holds more than one balance. *)
Theorem view_all_button_iff (p : TokenList.Props) (bs : list Ft4.Balance)
        (loading : bool) :
  exists v,
    TokenList.TokenList p bs loading = View v
    /\ (TokenList.viewAllButton v = true
        <-> TokenList.compact p = true
            /\ TokenList.fullList p = false
            /\ (List.length bs > 1)%nat).
Proof.
  destruct (TokenList_view p bs loading) as (v & Hv & _ & Hbtn & _).
  exists v. split; [exact Hv|]. rewrite Hbtn.
  unfold TokenList.hasMore, TokenList.showCompact.
  destruct (TokenList.compact p), (TokenList.fullList p); simpl;
    try (split; [discriminate | intros (H1 & H2 & _); discriminate]).
  rewrite Nat.ltb_lt. split; [intros H; repeat split; exact H | intros (_ & _ & H); exact H].
Qed.

(** X16. In compact mode a balance is hidden exactly when the list has
    more than three entries.  The list is therefore flagged as truncated
    although it is shown whole exactly when it has two or three
    entries. *)
Theorem truncated_flag_without_hidden_entries (p : TokenList.Props)
        (bs : list Ft4.Balance) :
  TokenList.showCompact p = true ->
  (TokenList.visible p bs = bs <-> (List.length bs <= 3)%nat)
  /\ (TokenList.truncated p bs = true /\ TokenList.visible p bs = bs
      <-> List.length bs = 2%nat \/ List.length bs = 3%nat).
Proof.
  intros Hc.
  assert (Hvis : TokenList.visible p bs = bs <-> (List.length bs <= 3)%nat).
  { unfold TokenList.visible, TokenList.displayBalances. rewrite Hc. split.
    - intros H. rewrite <- H. rewrite length_firstn. lia.
    - intros H. now apply firstn_all2. }
  split; [exact Hvis|].
  rewrite Hvis. unfold TokenList.truncated, TokenList.hasMore. rewrite Hc.
  rewrite andb_true_l, Nat.ltb_lt. lia.
Qed.

Lemma truncated_flag_without_hidden_entries_witness :
  (TokenList.visible compact_mode [balance_500; balance_usdt]
   = [balance_500; balance_usdt] <-> (2 <= 3)%nat)
  /\ (TokenList.truncated compact_mode [balance_500; balance_usdt] = true
      /\ TokenList.visible compact_mode [balance_500; balance_usdt]
         = [balance_500; balance_usdt]
      <-> 2%nat = 2%nat \/ 2%nat = 3%nat).
Proof.
  apply (@truncated_flag_without_hidden_entries compact_mode
           [balance_500; balance_usdt]).
  reflexivity.
Defined.

(** X17. The loading flag of the store changes nothing in the token list
    but the loading indicator: heading, button and body are the same
    while the balances are being refreshed, so the list keeps showing
    the current balances during a refresh. *)
Theorem loading_only_toggles_indicator (p : TokenList.Props)
        (bs : list Ft4.Balance) :
  exists head button content,
    forall loading,
      TokenList.TokenList p bs loading
      = View {| TokenList.heading := head;
                TokenList.viewAllButton := button;
                TokenList.loadingIndicator := loading;
                TokenList.body := content |}.
Proof.
  unfold TokenList.TokenList.
  destruct (TokenList.displayBalances p bs) as [|b rest].
  - do 3 eexists. intros loading. reflexivity.
  - destruct (renderRows_total (b :: rest) 0) as (rows & -> & _).
    do 3 eexists. intros loading. reflexivity.
Qed.
